(** * idshield: the group and capability creation handlers

    A shallow embedding of [webservices/groupservice/create_capability.go],
    [webservices/groupservice/grouphandler.go] and of the service wiring of
    [main.go], with the properties of the request pipeline stated over it.

    A handler is a computation in a small monad [M] that threads the
    observable world of one request (clock, provider calls, responses written
    to the client, log lines) and can end in a runtime panic, which is what a
    nil-pointer dereference or a failed type assertion does in Go.  An early
    [return] of the Go code is the end of the corresponding branch. *)

From stdpp Require Import base strings gmap list.
From Stdlib Require Import ZArith Lia.

Local Open Scope Z_scope.

(** ** The libraries the handlers are written against *)

(** [map[string][]string] *)
Abbreviation Attrs := (gmap string (list string)).

Module gocloak.

(** [gocloak.Group], with the fields the handlers read or write. *)
Record Group := {
  ID : option string;
  Name : option string;
  Path : option string;
  Attributes : option Attrs
}.

(** The client together with the provider behind it.  A call answers with
    the time it takes (nanoseconds) and either an error text or a value;
    [deadline_exceeded] is the text of the error a call returns when the
    deadline of its context passes first. *)
Record GoCloak := {
  create_group : string → string → Group → Z * (string + string);
  get_group : string → string → string → Z * (string + Group);
  deadline_exceeded : string
}.

End gocloak.

Module gin.

(** The decoded JSON object of a request body: the members [name] and
    [attributes], each absent (or null) or present. *)
Record JSONBody := {
  name : option string;
  attributes : option Attrs
}.

(** What a handler reads of [*gin.Context]: the request headers and the
    body, [None] when it is not a JSON object of the expected shape. *)
Record Context := {
  Header : gmap string string;
  Body : option JSONBody
}.

Definition GetHeader (c : Context) (key : string) : string :=
  default "" (Header c !! key).

End gin.

Module validator.

Record FieldError := {
  Field : string;
  Tag : string
}.

(** [validate.Struct] over the fields tagged [validate:"required"], given
    with their json names in declaration order; [hasValue] is the check
    behind the tag. *)
Definition Struct (hasValue : option string → bool)
    (fields : list (string * option string)) : list FieldError :=
  omap (λ f, if hasValue f.2 then None
             else Some {| Field := f.1; Tag := "required" |}) fields.

End validator.

(** The functions of the alya router and of the validator whose behaviour the
    handlers depend on and whose code is not part of this repository. *)
Record Libraries := {
  ExtractToken : string → option string;
  hasValue : option string → bool
}.

Module router.

(** Modelled from the spec: [router.ExtractToken] of the alya library, whose
    code is not part of this repository.  It fails when the header is
    absent, empty, or not prefixed with the case-sensitive scheme
    "Bearer ", and otherwise yields what follows the scheme. *)
Definition ExtractToken (headerAuth : string) : option string :=
  if String.prefix "Bearer " headerAuth
  then Some (String.substring 7 (String.length headerAuth - 7) headerAuth)
  else None.

End router.

(** The validator's [required] on a pointer field holds when the pointer is
    not nil. *)
Definition libraries : Libraries :=
  {| ExtractToken := router.ExtractToken;
     hasValue := λ p, bool_decide (is_Some p) |}.

(** ** The handler monad *)

(** The call a handler makes on the provider, the context it passes, and the
    error the call returned (if any). *)
Record Deadline := { deadline : Z }.

Inductive Op :=
| OpCreateGroup (token realm : string) (group : gocloak.Group)
| OpGetGroup (token realm groupID : string).

Record CallEvent := {
  started : Z;              (* clock when the call was made *)
  bound : Deadline;         (* the ctx argument of the call *)
  op : Op;
  returned_err : option string
}.

Module wscutils.

(** The JSON object of a response payload; both response structs of the
    package carry the json tags id, name, path and attributes. *)
Record Payload := {
  id : string;
  name : string;
  path : option string;
  attributes : option Attrs
}.

Record ErrorMessage := {
  Field : option string;
  ErrorCode : string;
  Vals : list string
}.

Record Response := {
  Status : string;
  Data : option Payload;
  Messages : list ErrorMessage
}.

Definition SuccessStatus : string := "success".
Definition ErrorStatus : string := "error".

Definition NewResponse (status : string) (data : option Payload)
    (messages : list ErrorMessage) : Response :=
  {| Status := status; Data := data; Messages := messages |}.

Definition BuildErrorMessage (errcode : string) (field : option string)
    (vals : list string) : ErrorMessage :=
  {| Field := field; ErrorCode := errcode; Vals := vals |}.

Definition NewErrorResponse (errcode : string) : Response :=
  NewResponse ErrorStatus None [BuildErrorMessage errcode None []].

End wscutils.

Record World := {
  clock : Z;                          (* nanoseconds, as time.Duration *)
  calls : list CallEvent;             (* provider calls, oldest first *)
  sent : list wscutils.Response;      (* envelopes written to the client *)
  logs : list string;                 (* LogHarbour messages *)
  stdout : list string                (* fmt.Print *)
}.

Inductive Res (A : Type) :=
| Ok (a : A)
| Panic.
Arguments Ok {A} a.
Arguments Panic {A}.

Definition M (A : Type) : Type := World → Res A * World.

#[global] Instance M_ret : MRet M := λ A a w, (Ok a, w).
#[global] Instance M_bind : MBind M := λ A B f m w,
  match m w with
  | (Ok a, w') => f a w'
  | (Panic, w') => (Panic, w')
  end.

(** [*p] *)
Definition deref {A} (p : option A) : M A := λ w,
  match p with
  | Some a => (Ok a, w)
  | None => (Panic, w)
  end.

Definition Log (msg : string) : M unit := λ w,
  (Ok (), {| clock := clock w; calls := calls w; sent := sent w;
             logs := logs w ++ [msg]; stdout := stdout w |}).

Definition Print (s : string) : M unit := λ w,
  (Ok (), {| clock := clock w; calls := calls w; sent := sent w;
             logs := logs w; stdout := stdout w ++ [s] |}).

(** [c.JSON(code, response)] *)
Definition JSON (r : wscutils.Response) : M unit := λ w,
  (Ok (), {| clock := clock w; calls := calls w; sent := sent w ++ [r];
             logs := logs w; stdout := stdout w |}).

Definition start (t0 : Z) : World :=
  {| clock := t0; calls := []; sent := []; logs := []; stdout := [] |}.

Definition run {A} (m : M A) (t0 : Z) : Res A * World := m (start t0).

(** ** Effects of the libraries *)

(** [lh.Log], [lh.LogActivity] and [lh.Debug0().LogDebug]: the message is
    kept, the structured data that goes with it is not. *)
Definition LogActivity (msg : string) : M unit := Log msg.
Definition LogDebug (msg : string) : M unit := Log msg.

(** [wscutils.SendErrorResponse] and [wscutils.SendSuccessResponse] write the
    response they are given. *)
Definition SendErrorResponse (response : wscutils.Response) : M unit :=
  JSON response.
Definition SendSuccessResponse (response : wscutils.Response) : M unit :=
  JSON response.

(** [wscutils.BindJSON]: the decoded body, or [None] for the error. *)
Definition BindJSON (c : gin.Context) : option gin.JSONBody := gin.Body c.

(** [wscutils.WscValidate]: one message per field error, in order, with the
    vals the caller's function gives for it. *)
Definition WscValidate (errs : list validator.FieldError)
    (getVals : validator.FieldError → M (list string))
    : M (list wscutils.ErrorMessage) :=
  mapM (λ err,
    vals ← getVals err;
    mret (wscutils.BuildErrorMessage (validator.Tag err)
            (Some (validator.Field err)) vals)) errs.

Definition Second : Z := 1000000000.

(** [context.WithTimeout(parent, d)], for a parent without a deadline. *)
Definition WithTimeout (d : Z) : M Deadline := λ w,
  (Ok {| deadline := clock w + d |}, w).

(** What a call bounded by [ctx] returns when it is made at time [now] and
    the provider would answer with [answer]: the answer, when it arrives by
    the deadline, and otherwise the [timeout] error, at the deadline. *)
Definition bounded {A} (ctx : Deadline) (now : Z) (answer : Z * (string + A))
    (timeout : string) : Z * (string + A) :=
  if bool_decide (now + answer.1 ≤ deadline ctx)
  then (now + answer.1, answer.2)
  else (Z.max now (deadline ctx), inl timeout).

Definition err_of {A} (r : string + A) : option string :=
  match r with
  | inl e => Some e
  | inr _ => None
  end.

Definition provider_call {A} (ctx : Deadline) (o : Op)
    (answer : Z * (string + A)) (timeout : string) : M (string + A) := λ w,
  let r := bounded ctx (clock w) answer timeout in
  (Ok r.2,
   {| clock := r.1;
      calls := calls w ++ [{| started := clock w; bound := ctx; op := o;
                              returned_err := err_of r.2 |}];
      sent := sent w; logs := logs w; stdout := stdout w |}).

(** [client.CreateGroup(ctx, token, realm, group)] *)
Definition CreateGroup (client : gocloak.GoCloak) (ctx : Deadline)
    (token realm : string) (group : gocloak.Group) : M (string + string) :=
  provider_call ctx (OpCreateGroup token realm group)
    (gocloak.create_group client token realm group)
    (gocloak.deadline_exceeded client).

(** [client.GetGroup(ctx, token, realm, groupID)] *)
Definition GetGroup (client : gocloak.GoCloak) (ctx : Deadline)
    (token realm groupID : string) : M (string + gocloak.Group) :=
  provider_call ctx (OpGetGroup token realm groupID)
    (gocloak.get_group client token realm groupID)
    (gocloak.deadline_exceeded client).

Module service.

(** A value of type [any] kept in the dependency bag. *)
Inductive any :=
| GoCloakValue (client : gocloak.GoCloak)
| StringValue (s : string).

Record Service := {
  Dependencies : gmap string any
}.

Definition NewService : Service := {| Dependencies := ∅ |}.

Definition WithDependency (key : string) (v : any) (s : Service) : Service :=
  {| Dependencies := <[key := v]> (Dependencies s) |}.

End service.

(** The type assertions to the gocloak client and to [string] on a looked-up
    dependency: a missing key or a value of another type panics. *)
Definition assert_GoCloak (v : option service.any) : M gocloak.GoCloak := λ w,
  match v with
  | Some (service.GoCloakValue client) => (Ok client, w)
  | _ => (Panic, w)
  end.

Definition assert_string (v : option service.any) : M string := λ w,
  match v with
  | Some (service.StringValue s) => (Ok s, w)
  | _ => (Panic, w)
  end.

(** [main.go]: the service the route is registered on. *)
Definition userService (client : gocloak.GoCloak) (realm : string)
    : service.Service :=
  service.WithDependency "realm" (service.StringValue realm)
    (service.WithDependency "goclock" (service.GoCloakValue client)
       service.NewService).

(** [fmt.Sprintf("409 Conflict: Top level group named '%s' already exists.", name)] *)
Definition conflict_text (name : string) : string :=
  "409 Conflict: Top level group named '" +:+ name +:+ "' already exists.".

(** ** create_capability.go *)

Module create_capability.

Record CreateCapabilityRequest := {
  Name : option string;
  Attributes : option Attrs
}.

Record CreateCapabilityResponse := {
  ID : string;
  Name' : string;
  Path : option string;
  Attributes' : option Attrs
}.

(** The json tags of the response struct. *)
Definition marshal (r : CreateCapabilityResponse) : wscutils.Payload :=
  {| wscutils.id := ID r; wscutils.name := Name' r;
     wscutils.path := Path r; wscutils.attributes := Attributes' r |}.

(** The json and validate tags of the request struct. *)
Definition bind (b : gin.JSONBody) : CreateCapabilityRequest :=
  {| Name := gin.name b; Attributes := gin.attributes b |}.

Definition required_fields (req : CreateCapabilityRequest)
    : list (string * option string) :=
  [("name", Name req)].

Definition getValsForCreateCapabilityError (req : CreateCapabilityRequest)
    (err : validator.FieldError) : M (list string) :=
  let vals : list string := [] in
  if String.eqb (validator.Field err) "name" then
    if String.eqb (validator.Tag err) "required" then
      let vals := vals ++ ["Capability name is required"] in
      name ← deref (Name req);
      let vals := vals ++ [name] in
      mret vals
    else mret vals
  else mret vals.

Definition validateCreateCapability (L : Libraries)
    (req : CreateCapabilityRequest) : M (list wscutils.ErrorMessage) :=
  validationErrors ←
    WscValidate (validator.Struct (hasValue L) (required_fields req))
      (getValsForCreateCapabilityError req);
  if bool_decide (0 < length validationErrors)%nat
  then mret validationErrors
  else mret validationErrors.

Definition HandleCapabilityCreateRequest (L : Libraries) (c : gin.Context)
    (s : service.Service) : M unit :=
  Log "create Capability request received";;
  match ExtractToken L (gin.GetHeader c "Authorization") with
  | None =>
      LogDebug "Missing or incorrect Authorization header format:";;
      SendErrorResponse (wscutils.NewErrorResponse "token_missing")
  | Some token =>
  match BindJSON c with
  | None =>
      LogActivity "Error Unmarshalling JSON to struct:";;
      SendErrorResponse (wscutils.NewErrorResponse "invalid_json")
  | Some body =>
  let createCapabilityReq := bind body in
  LogActivity "create capability request parsed";;
  validationErrors ← validateCreateCapability L createCapabilityReq;
  if bool_decide (0 < length validationErrors)%nat then
    LogDebug "Validation errors:";;
    SendErrorResponse
      (wscutils.NewResponse wscutils.ErrorStatus None validationErrors)
  else
  client ← assert_GoCloak (service.Dependencies s !! "goclock");
  realm ← assert_string (service.Dependencies s !! "realm");
  ctx ← WithTimeout (10 * Second);
  let group :=
    {| gocloak.ID := None; gocloak.Name := Name createCapabilityReq;
       gocloak.Path := None;
       gocloak.Attributes := Attributes createCapabilityReq |} in
  created ← CreateGroup client ctx token realm group;
  match created with
  | inl err =>
      LogActivity "Error while creating capability:";;
      name ← deref (Name createCapabilityReq);
      let conflictErr := conflict_text name in
      if String.eqb err "401 Unauthorized: HTTP 401 Unauthorized" then
        LogDebug "Unauthorized error occurred: ";;
        SendErrorResponse (wscutils.NewErrorResponse "Unauthorized")
      else if String.eqb err conflictErr then
        LogDebug "name conflict error occurred: ";;
        SendErrorResponse (wscutils.NewErrorResponse "name already exist")
      else
        LogDebug "Unknown error occurred: ";;
        SendErrorResponse (wscutils.NewErrorResponse "unknown")
  | inr capabilityCreationID =>
  fetched ← GetGroup client ctx token realm capabilityCreationID;
  match fetched with
  | inl err => Print err
  | inr groupInfo =>
  id ← deref (gocloak.ID groupInfo);
  name ← deref (gocloak.Name groupInfo);
  let CreateCapabilityResponse :=
    {| ID := id; Name' := name; Path := gocloak.Path groupInfo;
       Attributes' := gocloak.Attributes groupInfo |} in
  SendSuccessResponse
    {| wscutils.Status := "";
       wscutils.Data := Some (marshal CreateCapabilityResponse);
       wscutils.Messages := [] |};;
  LogActivity "Finished execution of createCapability"
  end end end end.

End create_capability.

(** ** grouphandler.go *)

Module grouphandler.

Record CreateGroupRequest := {
  Name : option string;
  Attributes : option Attrs
}.

Record CreateGroupResponse := {
  ID : string;
  Name' : string;
  Path : option string;
  Attributes' : option Attrs
}.

(** The json tags of the response struct. *)
Definition marshal (r : CreateGroupResponse) : wscutils.Payload :=
  {| wscutils.id := ID r; wscutils.name := Name' r;
     wscutils.path := Path r; wscutils.attributes := Attributes' r |}.

(** The json and validate tags of the request struct. *)
Definition bind (b : gin.JSONBody) : CreateGroupRequest :=
  {| Name := gin.name b; Attributes := gin.attributes b |}.

Definition required_fields (req : CreateGroupRequest)
    : list (string * option string) :=
  [("name", Name req)].

Definition getValsForCreateCapabilityError (req : CreateGroupRequest)
    (err : validator.FieldError) : M (list string) :=
  let vals : list string := [] in
  if String.eqb (validator.Field err) "name" then
    if String.eqb (validator.Tag err) "required" then
      let vals := vals ++ ["group name is required"] in
      name ← deref (Name req);
      let vals := vals ++ [name] in
      mret vals
    else mret vals
  else mret vals.

Definition validateCreateGroup (L : Libraries) (req : CreateGroupRequest)
    : M (list wscutils.ErrorMessage) :=
  validationErrors ←
    WscValidate (validator.Struct (hasValue L) (required_fields req))
      (getValsForCreateCapabilityError req);
  if bool_decide (0 < length validationErrors)%nat
  then mret validationErrors
  else mret validationErrors.

Definition HandleGroupCreationRequest (L : Libraries) (c : gin.Context)
    (s : service.Service) : M unit :=
  Log "create Group request received";;
  match ExtractToken L (gin.GetHeader c "Authorization") with
  | None =>
      LogDebug "Missing or incorrect Authorization header format:";;
      SendErrorResponse (wscutils.NewErrorResponse "token_missing")
  | Some token =>
  match BindJSON c with
  | None =>
      LogActivity "Error Unmarshalling JSON to struct:";;
      SendErrorResponse (wscutils.NewErrorResponse "invalid_json")
  | Some body =>
  let createGroupReq := bind body in
  LogActivity "create group request parsed";;
  validationErrors ← validateCreateGroup L createGroupReq;
  if bool_decide (0 < length validationErrors)%nat then
    LogDebug "Validation errors:";;
    SendErrorResponse
      (wscutils.NewResponse wscutils.ErrorStatus None validationErrors)
  else
  client ← assert_GoCloak (service.Dependencies s !! "goclock");
  realm ← assert_string (service.Dependencies s !! "realm");
  ctx ← WithTimeout (10 * Second);
  let group :=
    {| gocloak.ID := None; gocloak.Name := Name createGroupReq;
       gocloak.Path := None;
       gocloak.Attributes := Attributes createGroupReq |} in
  created ← CreateGroup client ctx token realm group;
  match created with
  | inl err =>
      LogActivity "Error while creating Group:";;
      name ← deref (Name createGroupReq);
      let conflictErr := conflict_text name in
      if String.eqb err "401 Unauthorized: HTTP 401 Unauthorized" then
        LogDebug "Unauthorized error occurred: ";;
        SendErrorResponse (wscutils.NewErrorResponse "Unauthorized")
      else if String.eqb err conflictErr then
        LogDebug "name conflict error occurred: ";;
        SendErrorResponse (wscutils.NewErrorResponse "name already exist")
      else
        LogDebug "Unknown error occurred: ";;
        SendErrorResponse (wscutils.NewErrorResponse "unknown")
  | inr groupCreationID =>
  fetched ← GetGroup client ctx token realm groupCreationID;
  match fetched with
  | inl err => mret ()
  | inr groupInfo =>
  id ← deref (gocloak.ID groupInfo);
  name ← deref (gocloak.Name groupInfo);
  let CreateGroupResponse :=
    {| ID := id; Name' := name; Path := gocloak.Path groupInfo;
       Attributes' := gocloak.Attributes groupInfo |} in
  SendSuccessResponse
    {| wscutils.Status := "success";
       wscutils.Data := Some (marshal CreateGroupResponse);
       wscutils.Messages := [] |};;
  LogActivity "Finished execution of createGroup"
  end end end end.

End grouphandler.

(** ** Requests and providers for the scenarios *)

Definition request (authorization : option string)
    (body : option gin.JSONBody) : gin.Context :=
  {| gin.Header :=
       match authorization with
       | Some v => {["Authorization" := v]}
       | None => ∅
       end;
     gin.Body := body |}.

Definition named (name : string) : gin.JSONBody :=
  {| gin.name := Some name; gin.attributes := None |}.

Definition unnamed : gin.JSONBody :=
  {| gin.name := None; gin.attributes := None |}.

(** A provider that gives the same two answers whatever it is asked. *)
Definition mock (create : Z * (string + string))
    (get : Z * (string + gocloak.Group)) : gocloak.GoCloak :=
  {| gocloak.create_group := λ _ _ _, create;
     gocloak.get_group := λ _ _ _, get;
     gocloak.deadline_exceeded := "context deadline exceeded" |}.

Definition admins : gocloak.Group :=
  {| gocloak.ID := Some "g-1"; gocloak.Name := Some "Admins";
     gocloak.Path := Some "/Admins"; gocloak.Attributes := None |}.

(** ** The error taxonomy of the specification *)

Inductive Kind :=
| TokenMissing
| InvalidBody
| ValidationFailed
| Unauthorized
| NameConflict
| ProviderTimeout
| ProviderFetchFailed
| Unknown.

(** The classifier in the words of the specification: the exact text of the
    401 error first, then the conflict template interpolated with the
    submitted name, then everything else. *)
Definition classify (name raw : string) : Kind :=
  if decide (raw = "401 Unauthorized: HTTP 401 Unauthorized") then Unauthorized
  else if decide (raw = conflict_text name) then NameConflict
  else Unknown.

(** The code the handlers send for a classified creation error. *)
Definition code_sent (k : Kind) : string :=
  match k with
  | Unauthorized => "Unauthorized"
  | NameConflict => "name already exist"
  | _ => "unknown"
  end.

(** ** Requests that reach the provider *)

(** The request carries a token and a body with a name that passes
    validation, and the service holds the client and the realm. *)
Record accepted (L : Libraries) (c : gin.Context) (s : service.Service)
    (token name : string) (attrs : option Attrs)
    (client : gocloak.GoCloak) (realm : string) : Prop := {
  acc_token : ExtractToken L (gin.GetHeader c "Authorization") = Some token;
  acc_body :
    gin.Body c = Some {| gin.name := Some name; gin.attributes := attrs |};
  acc_valid : hasValue L (Some name) = true;
  acc_client :
    service.Dependencies s !! "goclock" = Some (service.GoCloakValue client);
  acc_realm :
    service.Dependencies s !! "realm" = Some (service.StringValue realm)
}.

(** The group a handler submits, the context it creates at time [t0], and
    what the two calls return under that context. *)
Definition submitted (name : option string) (attrs : option Attrs)
    : gocloak.Group :=
  {| gocloak.ID := None; gocloak.Name := name;
     gocloak.Path := None; gocloak.Attributes := attrs |}.

Definition request_ctx (t0 : Z) : Deadline := {| deadline := t0 + 10 * Second |}.

Definition create_outcome (client : gocloak.GoCloak) (token realm : string)
    (name : option string) (attrs : option Attrs) (t0 : Z)
    : Z * (string + string) :=
  bounded (request_ctx t0) t0
    (gocloak.create_group client token realm (submitted name attrs))
    (gocloak.deadline_exceeded client).

Definition get_outcome (client : gocloak.GoCloak) (token realm groupID : string)
    (t0 t1 : Z) : Z * (string + gocloak.Group) :=
  bounded (request_ctx t0) t1
    (gocloak.get_group client token realm groupID)
    (gocloak.deadline_exceeded client).

Definition create_event (client : gocloak.GoCloak) (token realm : string)
    (name : option string) (attrs : option Attrs) (t0 : Z) : CallEvent :=
  {| started := t0; bound := request_ctx t0;
     op := OpCreateGroup token realm (submitted name attrs);
     returned_err := err_of (create_outcome client token realm name attrs t0).2 |}.

Definition get_event (client : gocloak.GoCloak) (token realm groupID : string)
    (t0 t1 : Z) : CallEvent :=
  {| started := t1; bound := request_ctx t0;
     op := OpGetGroup token realm groupID;
     returned_err := err_of (get_outcome client token realm groupID t0 t1).2 |}.

(** ** What a handler lets the outside observe *)

Record Observed := {
  result : Res unit;
  made : list CallEvent;
  written : list wscutils.Response;
  printed : list string
}.

Definition observe (x : Res unit * World) : Observed :=
  {| result := x.1; made := calls x.2; written := sent x.2;
     printed := stdout x.2 |}.

(** The places in which the text of the two handlers differs. *)
Record Route := {
  required_text : string;
  success_status : string;
  prints_fetch_error : bool
}.

Definition capability_route : Route :=
  {| required_text := "Capability name is required";
     success_status := "";
     prints_fetch_error := true |}.

Definition group_route : Route :=
  {| required_text := "group name is required";
     success_status := "success";
     prints_fetch_error := false |}.

(** The observation of a run once the provider is reached: the create call,
    the classification of its error, the fetch and the response. *)
Definition provider_phase (R : Route) (client : gocloak.GoCloak)
    (token realm : string) (name : option string) (attrs : option Attrs)
    (t0 : Z) : Observed :=
  let created := create_outcome client token realm name attrs t0 in
  let ev1 := create_event client token realm name attrs t0 in
  match created.2 with
  | inl raw =>
      match name with
      | None => {| result := Panic; made := [ev1]; written := []; printed := [] |}
      | Some n =>
          {| result := Ok (); made := [ev1];
             written := [wscutils.NewErrorResponse (code_sent (classify n raw))];
             printed := [] |}
      end
  | inr groupID =>
      let fetched := get_outcome client token realm groupID t0 created.1 in
      let ev2 := get_event client token realm groupID t0 created.1 in
      match fetched.2 with
      | inl err =>
          {| result := Ok (); made := [ev1; ev2]; written := [];
             printed := if prints_fetch_error R then [err] else [] |}
      | inr groupInfo =>
          match gocloak.ID groupInfo, gocloak.Name groupInfo with
          | Some i, Some n =>
              {| result := Ok (); made := [ev1; ev2];
                 written :=
                   [{| wscutils.Status := success_status R;
                       wscutils.Data :=
                         Some {| wscutils.id := i; wscutils.name := n;
                                 wscutils.path := gocloak.Path groupInfo;
                                 wscutils.attributes :=
                                   gocloak.Attributes groupInfo |};
                       wscutils.Messages := [] |}];
                 printed := [] |}
          | _, _ =>
              {| result := Panic; made := [ev1; ev2]; written := [];
                 printed := [] |}
          end
      end
  end.

(** The observation of a run in closed form, by cases on the request, the
    service and the answers of the provider; [handler_observed] below proves
    that the handlers compute it. *)
Definition outcome (R : Route) (L : Libraries) (c : gin.Context)
    (s : service.Service) (t0 : Z) : Observed :=
  match ExtractToken L (gin.GetHeader c "Authorization") with
  | None =>
      {| result := Ok (); made := [];
         written := [wscutils.NewErrorResponse "token_missing"];
         printed := [] |}
  | Some token =>
  match gin.Body c with
  | None =>
      {| result := Ok (); made := [];
         written := [wscutils.NewErrorResponse "invalid_json"];
         printed := [] |}
  | Some body =>
  if hasValue L (gin.name body) then
    match service.Dependencies s !! "goclock",
          service.Dependencies s !! "realm" with
    | Some (service.GoCloakValue client), Some (service.StringValue realm) =>
        provider_phase R client token realm (gin.name body)
          (gin.attributes body) t0
    | _, _ =>
        {| result := Panic; made := []; written := []; printed := [] |}
    end
  else
    match gin.name body with
    | None => {| result := Panic; made := []; written := []; printed := [] |}
    | Some n =>
        {| result := Ok (); made := [];
           written :=
             [wscutils.NewResponse wscutils.ErrorStatus None
                [wscutils.BuildErrorMessage "required" (Some "name")
                   [required_text R; n]]];
           printed := [] |}
    end
  end end.

(** ** The two routes *)

Inductive Which := capability | group.

Definition handler (h : Which)
    : Libraries → gin.Context → service.Service → M unit :=
  match h with
  | capability => create_capability.HandleCapabilityCreateRequest
  | group => grouphandler.HandleGroupCreationRequest
  end.

Definition route (h : Which) : Route :=
  match h with
  | capability => capability_route
  | group => group_route
  end.

(** One request served by a handler from time [t0]. *)
Definition serve (h : Which) (L : Libraries) (c : gin.Context)
    (s : service.Service) (t0 : Z) : Res unit * World :=
  run (handler h L c s) t0.

(** ** Predicates used in the statements *)

(** The header is absent, empty, or does not start with the scheme. *)
Definition no_bearer (c : gin.Context) : Prop :=
  match gin.Header c !! "Authorization" with
  | None => True
  | Some v => v = "" ∨ String.prefix "Bearer " v = false
  end.

(** Each call has a deadline of its own, ten seconds after it starts. *)
Definition independent_timeouts (w : World) : Prop :=
  ∀ ev, ev ∈ calls w → deadline (bound ev) = started ev + 10 * Second.

(** The envelope without its status, when it carries data. *)
Definition drop_status (r : wscutils.Response) : wscutils.Response :=
  match wscutils.Data r with
  | Some _ =>
      {| wscutils.Status := ""; wscutils.Data := wscutils.Data r;
         wscutils.Messages := wscutils.Messages r |}
  | None => r
  end.

(** ** Scenarios *)

Definition bearer_admins : gin.Context :=
  request (Some "Bearer tok1") (Some (named "Admins")).

Definition bearer_users : gin.Context :=
  request (Some "Bearer tok1") (Some (named "Users")).

Definition millisecond : Z := 1000000.

(** Scenario A: create gives "g-1", get gives the group. *)
Definition provider_ok : gocloak.GoCloak :=
  mock (20 * millisecond, inr "g-1") (20 * millisecond, inr admins).

(** The created group cannot be fetched. *)
Definition provider_fetch_fails : gocloak.GoCloak :=
  mock (20 * millisecond, inr "g-1")
       (20 * millisecond, inl "404 Not Found: Could not find group by id").

(** Scenario D: the name is taken. *)
Definition provider_conflict : gocloak.GoCloak :=
  mock (20 * millisecond, inl (conflict_text "Admins"))
       (20 * millisecond, inr admins).

(** Scenario E: the create call takes eleven seconds. *)
Definition provider_slow : gocloak.GoCloak :=
  mock (11 * Second, inr "g-1") (20 * millisecond, inr admins).

(** Each call takes six seconds. *)
Definition provider_six_six : gocloak.GoCloak :=
  mock (6 * Second, inr "g-1") (6 * Second, inr admins).

(** ** main.go *)

Module main.

Record AppConfig := {
  AppServerPort : string;
  KeycloakURL : string;
  KeycloakClientID : string;
  KeycloakClientSecret : string;
  ProviderURL : string;
  Realm : string
}.

(** The command line flags, after [flag.Parse]. *)
Record Flags := {
  configSystem : string;
  configFilePath : string;
  rigelConfigName : string;
  rigelSchemaName : string;
  etcdEndpoints : string
}.

(** The values of the flags when none is given. *)
Definition defaults : Flags :=
  {| configSystem := "file"; configFilePath := "./config.json";
     rigelConfigName := "C1"; rigelSchemaName := "S1";
     etcdEndpoints := "localhost:2379" |}.

(** What the process finds outside: the answers of the configuration
    loaders, of the file system, of the alya router and of gin.  A loader
    answers with an error text or a configuration, the other operations with
    their error, if any; [Run] answers [None] when the server keeps
    serving. *)
Record System := {
  LoadConfigFromFile : string → string + AppConfig;
  LoadConfigFromRigel : string → string → string → string + AppConfig;
  Open : string → option string;
  OpenFile : string → option string;
  LoadAuthMiddleware : string → string → option string;
  SetupRouter : option string;
  NewClient : string → gocloak.GoCloak;
  Run : string → option string
}.

(** What the process does to the outside, in order. *)
Inductive Action :=
| DoLoadConfigFromFile (path : string)
| DoLoadConfigFromRigel (endpoints name schema : string)
| DoPrintf (config : AppConfig)
| DoOpen (path : string)
| DoLoadErrorTypes (path : string)
| DoOpenFile (path : string)
| DoNewRedisTokenCache (addr : string)
| DoLoadAuthMiddleware (clientID providerURL : string)
| DoSetupRouter
| DoUse
| DoNewClient (url : string)
| DoRegisterRoute (method path : string) (h : Which)
| DoRun (addr : string).

(** The server [main] starts when nothing fails: its address, and the
    routes registered on the service. *)
Record Server := {
  addr : string;
  routes : list (string * string * Which);
  userService : service.Service
}.

(** A step of [main]: it adds to the actions done so far and either goes on
    with a value or ends the process with the message of [log.Fatalf]. *)
Definition P (A : Type) : Type := list Action → (string + A) * list Action.

Definition ret {A} (a : A) : P A := λ done, (inr a, done).

Definition bind {A B} (m : P A) (k : A → P B) : P B := λ done,
  match m done with
  | (inr a, done') => k a done'
  | (inl msg, done') => (inl msg, done')
  end.

Definition act (a : Action) : P unit := λ done, (inr (), done ++ [a]).

Definition Fatalf {A} (format : string) (v : string) : P A := λ done,
  (inl (format +:+ v), done).

(** [if err != nil { log.Fatalf(format, err) }] *)
Definition check (format : string) (err : option string) : P unit :=
  match err with
  | Some e => Fatalf format e
  | None => ret ()
  end.

Definition loaded (format : string) (r : string + AppConfig) : P AppConfig :=
  match r with
  | inl e => Fatalf format e
  | inr config => ret config
  end.

(** [main]: the message of [log.Fatalf] or the server, with the actions done
    on the way. *)
Definition main (flags : Flags) (sys : System)
    : (string + Server) * list Action :=
  (bind
     (if String.eqb (configSystem flags) "file" then
        bind (act (DoLoadConfigFromFile (configFilePath flags))) (λ _,
        loaded "Error loading config: "
          (LoadConfigFromFile sys (configFilePath flags)))
      else if String.eqb (configSystem flags) "rigel" then
        bind (act (DoLoadConfigFromRigel (etcdEndpoints flags)
                     (rigelConfigName flags) (rigelSchemaName flags))) (λ _,
        loaded "Error loading config: "
          (LoadConfigFromRigel sys (etcdEndpoints flags)
             (rigelConfigName flags) (rigelSchemaName flags)))
      else Fatalf "Unknown configuration system: " (configSystem flags))
     (λ appConfig,
   bind (act (DoPrintf appConfig)) (λ _,
   bind (act (DoOpen "./errortypes.yaml")) (λ _,
   bind (check "Failed to open error types file: "
           (Open sys "./errortypes.yaml")) (λ _,
   bind (act (DoLoadErrorTypes "./errortypes.yaml")) (λ _,
   bind (act (DoOpenFile "log.txt")) (λ _,
   bind (check "" (OpenFile sys "log.txt")) (λ _,
   bind (act (DoNewRedisTokenCache "localhost:6379")) (λ _,
   bind (act (DoLoadAuthMiddleware (KeycloakClientID appConfig)
                (ProviderURL appConfig))) (λ _,
   bind (check "Failed to create new auth middleware: "
           (LoadAuthMiddleware sys (KeycloakClientID appConfig)
              (ProviderURL appConfig))) (λ _,
   bind (act DoSetupRouter) (λ _,
   bind (check "Failed to setup router: " (SetupRouter sys)) (λ _,
   bind (act DoUse) (λ _,
   bind (act (DoNewClient (KeycloakURL appConfig))) (λ _,
   let client := NewClient sys (KeycloakURL appConfig) in
   let userService' :=
     service.WithDependency "realm" (service.StringValue (Realm appConfig))
       (service.WithDependency "goclock" (service.GoCloakValue client)
          service.NewService) in
   bind (act (DoRegisterRoute "POST" "/capability-create" capability)) (λ _,
   bind (act (DoRun (":" +:+ AppServerPort appConfig))) (λ _,
   bind (check "Failed to start server: "
           (Run sys (":" +:+ AppServerPort appConfig))) (λ _,
   ret {| addr := ":" +:+ AppServerPort appConfig;
          routes := [("POST", "/capability-create", capability)];
          userService := userService' |}
   ))))))))))))))))))
  [].

End main.

(** ** More requests, libraries and systems for the examples *)



Definition bearer_no_body : gin.Context :=
  request (Some "Bearer tok1") None.

(** The fetched group comes without a name. *)
Definition provider_nameless : gocloak.GoCloak :=
  mock (20 * millisecond, inr "g-1")
       (20 * millisecond,
        inr {| gocloak.ID := Some "g-1"; gocloak.Name := None;
               gocloak.Path := None; gocloak.Attributes := None |}).

(** The codes of the error envelopes. *)
Definition error_codes : list string :=
  ["token_missing"; "invalid_json"; "required"; "Unauthorized";
   "name already exist"; "unknown"].

(** An envelope as the handlers send them: data under the status of the
    route and no message, or the status "error", no data and one message
    with one of the codes. *)
Definition well_formed (R : Route) (r : wscutils.Response) : Prop :=
  (is_Some (wscutils.Data r) ∧ wscutils.Status r = success_status R ∧
   wscutils.Messages r = []) ∨
  (wscutils.Data r = None ∧ wscutils.Status r = "error" ∧
   ∃ m, wscutils.Messages r = [m] ∧ wscutils.ErrorCode m ∈ error_codes).

(** The calls follow the protocol: none; or one create call; or a create call
    that returned no error followed by the get call, with the same token and
    realm, on the same client, for the group the provider answered the
    create call with. *)
Definition protocol (s : service.Service) (w : World) : Prop :=
  calls w = [] ∨
  (∃ ev token realm g,
     calls w = [ev] ∧ op ev = OpCreateGroup token realm g) ∨
  (∃ ev1 ev2 token realm g groupID client,
     calls w = [ev1; ev2] ∧
     op ev1 = OpCreateGroup token realm g ∧ returned_err ev1 = None ∧
     op ev2 = OpGetGroup token realm groupID ∧
     service.Dependencies s !! "goclock" = Some (service.GoCloakValue client) ∧
     (gocloak.create_group client token realm g).2 = inr groupID).

Definition sample_config : main.AppConfig :=
  {| main.AppServerPort := "8080";
     main.KeycloakURL := "http://keycloak:8080";
     main.KeycloakClientID := "idshield";
     main.KeycloakClientSecret := "secret";
     main.ProviderURL := "http://keycloak:8080/realms/idshield";
     main.Realm := "idshield" |}.

(** A system in which every step of the start succeeds. *)
Definition sample_system : main.System :=
  {| main.LoadConfigFromFile := λ _, inr sample_config;
     main.LoadConfigFromRigel := λ _ _ _, inl "etcd unreachable";
     main.Open := λ _, None;
     main.OpenFile := λ _, None;
     main.LoadAuthMiddleware := λ _ _, None;
     main.SetupRouter := None;
     main.NewClient := λ _, provider_ok;
     main.Run := λ _, None |}.

(** The last message a handler logs when it has answered with data. *)
Definition finished_text (h : Which) : string :=
  match h with
  | capability => "Finished execution of createCapability"
  | group => "Finished execution of createGroup"
  end.

(** * Properties *)

(** ** The handlers compute [outcome] *)

Lemma eqb_decide (a b : string) : String.eqb a b = bool_decide (a = b).
Proof.
  destruct (String.eqb_spec a b).
  - by rewrite bool_decide_eq_true_2.
  - by rewrite bool_decide_eq_false_2.
Qed.

Lemma code_sent_cases (name raw : string) :
  code_sent (classify name raw) =
    if String.eqb raw "401 Unauthorized: HTTP 401 Unauthorized"
    then "Unauthorized"
    else if String.eqb raw (conflict_text name) then "name already exist"
    else "unknown".
Proof.
  unfold classify. rewrite !eqb_decide.
  repeat case_bool_decide; repeat case_decide; done.
Qed.

Ltac monad := unfold mbind, M_bind, mret, M_ret.

(** Unfolds a handler up to the provider calls and names the two outcomes. *)
Ltac provider_cases name attrs client token realm t0 :=
  simpl; unfold provider_phase, create_event, get_event;
  fold (request_ctx t0); fold (submitted name attrs);
  fold (create_outcome client token realm name attrs t0);
  destruct (create_outcome client token realm name attrs t0)
    as [?t1 [?raw|?gid]]; simpl;
  [ destruct name as [?n|]; [|reflexivity]; simpl;
    rewrite code_sent_cases;
    repeat match goal with |- context [String.eqb ?a ?b] =>
      destruct (String.eqb a b) end; reflexivity
  | match goal with t1 : Z, gid : string |- _ =>
      fold (get_outcome client token realm gid t0 t1);
      destruct (get_outcome client token realm gid t0 t1)
        as [?t2 [?e|[[?i|] [?n|] ?p ?a]]]; reflexivity
    end ].

Lemma capability_observed L c s t0 :
  observe (run (create_capability.HandleCapabilityCreateRequest L c s) t0)
  = outcome capability_route L c s t0.
Proof.
  unfold run, create_capability.HandleCapabilityCreateRequest, outcome, BindJSON.
  destruct (ExtractToken L _) as [token|]; [|reflexivity].
  destruct (gin.Body c) as [[name attrs]|]; [|reflexivity].
  unfold create_capability.validateCreateCapability, WscValidate,
    validator.Struct.
  monad. simpl.
  destruct (hasValue L name); simpl; [|by destruct name].
  destruct (service.Dependencies s !! "goclock") as [[client|?]|];
    try reflexivity.
  simpl.
  destruct (service.Dependencies s !! "realm") as [[?|realm]|];
    try reflexivity.
  provider_cases name attrs client token realm t0.
Qed.

Lemma group_observed L c s t0 :
  observe (run (grouphandler.HandleGroupCreationRequest L c s) t0)
  = outcome group_route L c s t0.
Proof.
  unfold run, grouphandler.HandleGroupCreationRequest, outcome, BindJSON.
  destruct (ExtractToken L _) as [token|]; [|reflexivity].
  destruct (gin.Body c) as [[name attrs]|]; [|reflexivity].
  unfold grouphandler.validateCreateGroup, WscValidate, validator.Struct.
  monad. simpl.
  destruct (hasValue L name); simpl; [|by destruct name].
  destruct (service.Dependencies s !! "goclock") as [[client|?]|];
    try reflexivity.
  simpl.
  destruct (service.Dependencies s !! "realm") as [[?|realm]|];
    try reflexivity.
  provider_cases name attrs client token realm t0.
Qed.

Lemma handler_observed h L c s t0 :
  observe (serve h L c s t0) = outcome (route h) L c s t0.
Proof.
  destruct h; [apply capability_observed | apply group_observed].
Qed.

(** The projections of a run, read off its observation. *)
Lemma serve_result h L c s t0 :
  (serve h L c s t0).1 = result (outcome (route h) L c s t0).
Proof. by rewrite <- handler_observed. Qed.

Lemma serve_calls h L c s t0 :
  calls (serve h L c s t0).2 = made (outcome (route h) L c s t0).
Proof. by rewrite <- handler_observed. Qed.

Lemma serve_sent h L c s t0 :
  sent (serve h L c s t0).2 = written (outcome (route h) L c s t0).
Proof. by rewrite <- handler_observed. Qed.

Lemma serve_stdout h L c s t0 :
  stdout (serve h L c s t0).2 = printed (outcome (route h) L c s t0).
Proof. by rewrite <- handler_observed. Qed.

Lemma outcome_accepted R L c s token name attrs client realm t0 :
  accepted L c s token name attrs client realm →
  outcome R L c s t0 = provider_phase R client token realm (Some name) attrs t0.
Proof.
  intros [Ht Hb Hv Hc Hr]. unfold outcome.
  rewrite Ht, Hb. simpl. by rewrite Hv, Hc, Hr.
Qed.

Lemma outcome_no_token R L c s t0 :
  ExtractToken L (gin.GetHeader c "Authorization") = None →
  outcome R L c s t0 =
    {| result := Ok (); made := [];
       written := [wscutils.NewErrorResponse "token_missing"];
       printed := [] |}.
Proof. intros H. unfold outcome. by rewrite H. Qed.

Lemma provider_phase_create_error R client token realm name attrs t0 raw :
  (create_outcome client token realm (Some name) attrs t0).2 = inl raw →
  provider_phase R client token realm (Some name) attrs t0 =
    {| result := Ok ();
       made := [create_event client token realm (Some name) attrs t0];
       written := [wscutils.NewErrorResponse (code_sent (classify name raw))];
       printed := [] |}.
Proof. intros H. unfold provider_phase. by rewrite H. Qed.

Lemma ExtractToken_no_bearer c :
  no_bearer c → router.ExtractToken (gin.GetHeader c "Authorization") = None.
Proof.
  unfold no_bearer, gin.GetHeader, router.ExtractToken.
  destruct (gin.Header c !! "Authorization") as [v|]; simpl; [|done].
  intros [-> | ->]; done.
Qed.

(** When the required check accepts every name that is present, the two
    handlers return alike, make the same calls, and send the same envelopes
    up to the status of the success envelope. *)
Lemma handlers_agree_up_to_status L c s t0 :
  (∀ n, hasValue L (Some n) = true) →
  (serve capability L c s t0).1 = (serve group L c s t0).1 ∧
  calls (serve capability L c s t0).2 = calls (serve group L c s t0).2 ∧
  sent (serve capability L c s t0).2
    = map drop_status (sent (serve group L c s t0).2).
Proof.
  intros Hv. rewrite !serve_result, !serve_calls, !serve_sent. unfold outcome.
  destruct (ExtractToken L _) as [token|]; [|done].
  destruct (gin.Body c) as [[name attrs]|]; [|done]. simpl.
  assert (Hname : hasValue L name = true ∨ name = None).
  { destruct name; [left; apply Hv | by right]. }
  destruct (hasValue L name); [|by destruct Hname as [ | -> ]].
  destruct (service.Dependencies s !! "goclock") as [[client|?]|]; try done.
  destruct (service.Dependencies s !! "realm") as [[?|realm]|]; try done.
  unfold provider_phase.
  destruct (create_outcome client token realm name attrs t0) as [t1 [raw|gid]];
    simpl; [by destruct name|].
  by destruct (get_outcome client token realm gid t0 t1)
    as [t2 [e|[[i|] [n|] p a]]].
Qed.

(** ** The creation request pipeline *)

(** C1, evaluated on the code: when the request is accepted, the group is
    created and the fetch of the created group fails, either handler returns
    normally without writing any response; no [ProviderFetchFailed] envelope
    is sent. *)
Theorem C1_failed_fetch_sends_nothing
    h L c s token name attrs client realm t0 t1 groupID err :
  accepted L c s token name attrs client realm →
  create_outcome client token realm (Some name) attrs t0 = (t1, inr groupID) →
  (get_outcome client token realm groupID t0 t1).2 = inl err →
  (serve h L c s t0).1 = Ok () ∧
  sent (serve h L c s t0).2 = [] ∧
  length (calls (serve h L c s t0).2) = 2%nat.
Proof.
  intros Hacc Hc Hg.
  rewrite serve_result, serve_sent, serve_calls.
  rewrite (outcome_accepted _ _ _ _ _ _ _ _ _ _ Hacc).
  unfold provider_phase. rewrite Hc. simpl. by rewrite Hg.
Qed.

Lemma C1_failed_fetch_sends_nothing_witness :
  accepted libraries bearer_admins (userService provider_fetch_fails "idshield")
    "tok1" "Admins" None provider_fetch_fails "idshield" ∧
  (serve capability libraries bearer_admins
     (userService provider_fetch_fails "idshield") 0).1 = Ok () ∧
  sent (serve capability libraries bearer_admins
          (userService provider_fetch_fails "idshield") 0).2 = [] ∧
  length (calls (serve capability libraries bearer_admins
                   (userService provider_fetch_fails "idshield") 0).2) = 2%nat.
Proof.
  assert (Hacc : accepted libraries bearer_admins
            (userService provider_fetch_fails "idshield")
            "tok1" "Admins" None provider_fetch_fails "idshield")
    by (split; reflexivity).
  split; [exact Hacc|].
  exact (C1_failed_fetch_sends_nothing capability libraries bearer_admins
           (userService provider_fetch_fails "idshield")
           "tok1" "Admins" None provider_fetch_fails "idshield"
           0 (20 * millisecond) "g-1"
           "404 Not Found: Could not find group by id"
           Hacc eq_refl eq_refl).
Defined.

(** C2 as stated fails: in scenario D the code sent for the name conflict is
    not "name_already_exist". *)
Lemma C2_conflict_code_counterexample :
  sent (serve capability libraries bearer_admins
          (userService provider_conflict "idshield") 0).2
  ≠ [wscutils.NewErrorResponse "name_already_exist"].
Proof. vm_compute. discriminate. Qed.

(** C2, amended: a creation error is answered with exactly one message, whose
    code is that of the first matching entry: "Unauthorized" for the exact 401
    text, "name already exist" for the conflict template interpolated with the
    submitted name, "unknown" for anything else. *)
Theorem C2_creation_error_classified
    h L c s token name attrs client realm t0 raw :
  accepted L c s token name attrs client realm →
  (create_outcome client token realm (Some name) attrs t0).2 = inl raw →
  (serve h L c s t0).1 = Ok () ∧
  sent (serve h L c s t0).2 =
    [wscutils.NewErrorResponse (code_sent (classify name raw))].
Proof.
  intros Hacc Hraw.
  rewrite serve_result, serve_sent.
  rewrite (outcome_accepted _ _ _ _ _ _ _ _ _ _ Hacc).
  by rewrite (provider_phase_create_error _ _ _ _ _ _ _ _ Hraw).
Qed.

Lemma C2_creation_error_classified_witness :
  (serve capability libraries bearer_admins
     (userService provider_conflict "idshield") 0).1 = Ok () ∧
  sent (serve capability libraries bearer_admins
          (userService provider_conflict "idshield") 0).2 =
    [wscutils.NewErrorResponse
       (code_sent (classify "Admins" (conflict_text "Admins")))].
Proof.
  refine (C2_creation_error_classified capability libraries bearer_admins
            (userService provider_conflict "idshield")
            "tok1" "Admins" None provider_conflict "idshield" 0
            (conflict_text "Admins") _ eq_refl).
  split; reflexivity.
Defined.

(** C3, evaluated on the code: when the body decodes without a name and the
    required check rejects the missing name, building the context of the
    validation error dereferences the nil name: the handler panics, no
    validation error and no response is produced, and the provider is not
    called. *)
Theorem C3_absent_name_panics h L c s token attrs t0 :
  hasValue L None = false →
  ExtractToken L (gin.GetHeader c "Authorization") = Some token →
  gin.Body c = Some {| gin.name := None; gin.attributes := attrs |} →
  (serve h L c s t0).1 = Panic ∧
  sent (serve h L c s t0).2 = [] ∧
  calls (serve h L c s t0).2 = [].
Proof.
  intros Hv Ht Hb.
  rewrite serve_result, serve_sent, serve_calls.
  unfold outcome. rewrite Ht, Hb. simpl. by rewrite Hv.
Qed.

Lemma C3_absent_name_panics_witness :
  (serve capability libraries (request (Some "Bearer tok1") (Some unnamed))
     (userService provider_ok "idshield") 0).1 = Panic ∧
  sent (serve capability libraries
          (request (Some "Bearer tok1") (Some unnamed))
          (userService provider_ok "idshield") 0).2 = [] ∧
  calls (serve capability libraries
           (request (Some "Bearer tok1") (Some unnamed))
           (userService provider_ok "idshield") 0).2 = [].
Proof.
  exact (C3_absent_name_panics capability libraries
           (request (Some "Bearer tok1") (Some unnamed))
           (userService provider_ok "idshield") "tok1" None 0
           eq_refl eq_refl eq_refl).
Defined.

(** C4: when the Authorization header is absent, empty, or does not start
    with "Bearer ", either handler answers with the single error code
    "token_missing" and makes no provider call. *)
Theorem C4_missing_token_short_circuits h hv c s t0 :
  no_bearer c →
  let L := {| ExtractToken := router.ExtractToken; hasValue := hv |} in
  (serve h L c s t0).1 = Ok () ∧
  sent (serve h L c s t0).2 = [wscutils.NewErrorResponse "token_missing"] ∧
  calls (serve h L c s t0).2 = [].
Proof.
  intros Hc L.
  rewrite serve_result, serve_sent, serve_calls.
  by rewrite outcome_no_token by by apply ExtractToken_no_bearer.
Qed.

Lemma C4_missing_token_short_circuits_witness :
  no_bearer (request None (Some (named "Admins"))) ∧
  sent (serve capability libraries (request None (Some (named "Admins")))
          (userService provider_ok "idshield") 0).2
    = [wscutils.NewErrorResponse "token_missing"] ∧
  calls (serve capability libraries (request None (Some (named "Admins")))
           (userService provider_ok "idshield") 0).2 = [].
Proof.
  assert (H : no_bearer (request None (Some (named "Admins"))))
    by exact I.
  split; [exact H|].
  exact (proj2 (C4_missing_token_short_circuits capability
                  (hasValue libraries) (request None (Some (named "Admins")))
                  (userService provider_ok "idshield") 0 H)).
Defined.

(** ** Deadlines *)

Lemma create_outcome_late client token realm name attrs t0 :
  10 * Second <
    (gocloak.create_group client token realm (submitted name attrs)).1 →
  (create_outcome client token realm name attrs t0).2
    = inl (gocloak.deadline_exceeded client).
Proof.
  intros Hlate. unfold create_outcome, bounded, request_ctx. simpl.
  rewrite bool_decide_eq_false_2; [done | lia].
Qed.

Lemma code_sent_not_timeout k : code_sent k ≠ "provider_timeout".
Proof. by destruct k. Qed.

(** C5 as stated fails: in scenario E the create call exceeds ten seconds and
    the envelope sent does not carry the code "provider_timeout". *)
Lemma C5_timeout_code_counterexample :
  sent (serve capability libraries bearer_admins
          (userService provider_slow "idshield") 0).2
  ≠ [wscutils.NewErrorResponse "provider_timeout"].
Proof. vm_compute. discriminate. Qed.

(** C5, amended: when the create call of an accepted request exceeds the ten
    seconds of the request's context, the call returns the deadline error of
    the client library, which is classified like every other creation error:
    the client receives the error envelope with one message, whose code is
    never "provider_timeout". *)
Theorem C5_create_timeout_classified
    h L c s token name attrs client realm t0 :
  accepted L c s token name attrs client realm →
  10 * Second <
    (gocloak.create_group client token realm (submitted (Some name) attrs)).1 →
  map returned_err (calls (serve h L c s t0).2)
    = [Some (gocloak.deadline_exceeded client)] ∧
  sent (serve h L c s t0).2 =
    [wscutils.NewErrorResponse
       (code_sent (classify name (gocloak.deadline_exceeded client)))] ∧
  code_sent (classify name (gocloak.deadline_exceeded client))
    ≠ "provider_timeout".
Proof.
  intros Hacc Hlate.
  pose proof (create_outcome_late _ token realm (Some name) attrs t0 Hlate)
    as Hraw.
  rewrite serve_sent, serve_calls.
  rewrite (outcome_accepted _ _ _ _ _ _ _ _ _ _ Hacc).
  rewrite (provider_phase_create_error _ _ _ _ _ _ _ _ Hraw). simpl.
  unfold create_event. simpl. rewrite Hraw.
  split_and!; [done | done | apply code_sent_not_timeout].
Qed.

Lemma C5_create_timeout_classified_witness :
  10 * Second < 11 * Second ∧
  sent (serve capability libraries bearer_admins
          (userService provider_slow "idshield") 0).2 =
    [wscutils.NewErrorResponse "unknown"].
Proof.
  split; [reflexivity|].
  refine (proj1 (proj2 (C5_create_timeout_classified capability libraries
            bearer_admins (userService provider_slow "idshield")
            "tok1" "Admins" None provider_slow "idshield" 0 _ eq_refl))).
  split; reflexivity.
Defined.

(** The calls of a run: none, the create call, or the create call followed
    by the get call, all under the context made when the handler started. *)
Lemma outcome_calls R L c s t0 :
  Forall (λ ev, bound ev = request_ctx t0) (made (outcome R L c s t0)) ∧
  (made (outcome R L c s t0) = [] ∨
   ∃ ev0 rest, made (outcome R L c s t0) = ev0 :: rest ∧ started ev0 = t0).
Proof.
  unfold outcome.
  destruct (ExtractToken L _) as [token|]; [|by auto].
  destruct (gin.Body c) as [[name attrs]|]; [|by auto]. simpl.
  destruct (hasValue L name); [|destruct name; by auto].
  destruct (service.Dependencies s !! "goclock") as [[client|?]|]; try by auto.
  destruct (service.Dependencies s !! "realm") as [[?|realm]|]; try by auto.
  unfold provider_phase.
  destruct (create_outcome client token realm name attrs t0) as [t1 [raw|gid]];
    simpl.
  - destruct name; simpl; (split; [by repeat constructor | right; by eauto]).
  - destruct (get_outcome client token realm gid t0 t1)
      as [t2 [e|[[i|] [n|] p a]]]; simpl;
      (split; [by repeat constructor | right; by eauto]).
Qed.

(** C7 as stated fails: when each call takes six seconds, the get call starts
    six seconds into the request with four seconds left. *)
Lemma C7_shared_deadline_counterexample :
  ¬ independent_timeouts
      (serve capability libraries bearer_admins
         (userService provider_six_six "idshield") 0).2.
Proof.
  intros H.
  specialize (H (get_event provider_six_six "tok1" "idshield" "g-1" 0
                   (6 * Second))).
  assert (Hin : get_event provider_six_six "tok1" "idshield" "g-1" 0
                  (6 * Second)
                ∈ calls (serve capability libraries bearer_admins
                           (userService provider_six_six "idshield") 0).2).
  { vm_compute. apply elem_of_cons. right. apply elem_of_cons. by left. }
  apply H in Hin. vm_compute in Hin. discriminate.
Qed.

(** C7, amended: the calls of one request share one context; every call is
    given the deadline that lies ten seconds after the start of the first
    call, so the get call is bounded by what the create call has left of
    those ten seconds. *)
Theorem C7_one_deadline_per_request h L c s t0 ev0 ev :
  calls (serve h L c s t0).2 !! 0%nat = Some ev0 →
  ev ∈ calls (serve h L c s t0).2 →
  bound ev = bound ev0 ∧ deadline (bound ev) = started ev0 + 10 * Second.
Proof.
  rewrite serve_calls.
  destruct (outcome_calls (route h) L c s t0) as [Hall [->|(e0 & rest & Hm & Hs)]];
    [done|].
  rewrite Hm in Hall |- *. simpl. intros [= <-] Hin.
  rewrite Forall_forall in Hall.
  rewrite (Hall ev Hin), (Hall e0) by (apply elem_of_cons; by left).
  by rewrite Hs.
Qed.

Lemma C7_one_deadline_per_request_witness :
  calls (serve capability libraries bearer_admins
           (userService provider_six_six "idshield") 0).2 !! 0%nat
    = Some (create_event provider_six_six "tok1" "idshield"
              (Some "Admins") None 0) ∧
  get_event provider_six_six "tok1" "idshield" "g-1" 0 (6 * Second)
    ∈ calls (serve capability libraries bearer_admins
               (userService provider_six_six "idshield") 0).2 ∧
  deadline (bound (get_event provider_six_six "tok1" "idshield" "g-1" 0
                     (6 * Second)))
    = 0 + 10 * Second.
Proof.
  assert (Hin : get_event provider_six_six "tok1" "idshield" "g-1" 0
                  (6 * Second)
                ∈ calls (serve capability libraries bearer_admins
                           (userService provider_six_six "idshield") 0).2).
  { vm_compute. apply elem_of_cons. right. apply elem_of_cons. by left. }
  split_and!; [reflexivity | exact Hin |].
  exact (proj2 (C7_one_deadline_per_request capability libraries bearer_admins
                  (userService provider_six_six "idshield") 0
                  (create_event provider_six_six "tok1" "idshield"
                     (Some "Admins") None 0)
                  (get_event provider_six_six "tok1" "idshield" "g-1" 0
                     (6 * Second))
                  eq_refl Hin)).
Defined.

(** ** The success envelope *)

Lemma provider_phase_success R client token realm name attrs t0 t1 groupID
    groupInfo i n :
  create_outcome client token realm (Some name) attrs t0 = (t1, inr groupID) →
  (get_outcome client token realm groupID t0 t1).2 = inr groupInfo →
  gocloak.ID groupInfo = Some i →
  gocloak.Name groupInfo = Some n →
  written (provider_phase R client token realm (Some name) attrs t0) =
    [{| wscutils.Status := success_status R;
        wscutils.Data :=
          Some {| wscutils.id := i; wscutils.name := n;
                  wscutils.path := gocloak.Path groupInfo;
                  wscutils.attributes := gocloak.Attributes groupInfo |};
        wscutils.Messages := [] |}].
Proof.
  intros Hc Hg Hi Hn. unfold provider_phase.
  rewrite Hc. simpl. by rewrite Hg, Hi, Hn.
Qed.

(** C6, evaluated on the code: after a successful creation and fetch the
    capability handler sends one envelope whose data are the id, name, path
    and attributes of the fetched group, unchanged, and whose status is the
    empty string, not "success". *)
Theorem C6_capability_success_envelope
    L c s token name attrs client realm t0 t1 groupID groupInfo i n :
  accepted L c s token name attrs client realm →
  create_outcome client token realm (Some name) attrs t0 = (t1, inr groupID) →
  (get_outcome client token realm groupID t0 t1).2 = inr groupInfo →
  gocloak.ID groupInfo = Some i →
  gocloak.Name groupInfo = Some n →
  sent (serve capability L c s t0).2 =
    [{| wscutils.Status := "";
        wscutils.Data :=
          Some {| wscutils.id := i; wscutils.name := n;
                  wscutils.path := gocloak.Path groupInfo;
                  wscutils.attributes := gocloak.Attributes groupInfo |};
        wscutils.Messages := [] |}].
Proof.
  intros Hacc Hc Hg Hi Hn.
  rewrite serve_sent, (outcome_accepted _ _ _ _ _ _ _ _ _ _ Hacc).
  by rewrite (provider_phase_success _ _ _ _ _ _ _ _ _ _ _ _ Hc Hg Hi Hn).
Qed.

Lemma C6_capability_success_envelope_witness :
  sent (serve capability libraries bearer_admins
          (userService provider_ok "idshield") 0).2 =
    [{| wscutils.Status := "";
        wscutils.Data :=
          Some {| wscutils.id := "g-1"; wscutils.name := "Admins";
                  wscutils.path := Some "/Admins";
                  wscutils.attributes := None |};
        wscutils.Messages := [] |}].
Proof.
  refine (C6_capability_success_envelope libraries bearer_admins
            (userService provider_ok "idshield")
            "tok1" "Admins" None provider_ok "idshield"
            0 (20 * millisecond) "g-1" admins "g-1" "Admins"
            _ eq_refl eq_refl eq_refl eq_refl).
  split; reflexivity.
Defined.

(** C8, evaluated on the code: on the same accepted request and the same
    provider answers, after a successful creation and fetch, the two handlers
    send envelopes with the same data and different statuses: the empty
    string from the capability handler, "success" from the group handler. *)
Theorem C8_handlers_differ_on_success
    L c s token name attrs client realm t0 t1 groupID groupInfo i n :
  accepted L c s token name attrs client realm →
  create_outcome client token realm (Some name) attrs t0 = (t1, inr groupID) →
  (get_outcome client token realm groupID t0 t1).2 = inr groupInfo →
  gocloak.ID groupInfo = Some i →
  gocloak.Name groupInfo = Some n →
  ∃ r1 r2,
    sent (serve capability L c s t0).2 = [r1] ∧
    sent (serve group L c s t0).2 = [r2] ∧
    wscutils.Data r1 = wscutils.Data r2 ∧
    wscutils.Status r1 = "" ∧
    wscutils.Status r2 = "success" ∧
    r1 ≠ r2.
Proof.
  intros Hacc Hc Hg Hi Hn.
  rewrite !serve_sent, !(outcome_accepted _ _ _ _ _ _ _ _ _ _ Hacc).
  rewrite !(provider_phase_success _ _ _ _ _ _ _ _ _ _ _ _ Hc Hg Hi Hn).
  do 2 eexists. split_and!; try reflexivity. done.
Qed.

Lemma C8_handlers_differ_on_success_witness :
  sent (serve capability libraries bearer_admins
          (userService provider_ok "idshield") 0).2
  ≠ sent (serve group libraries bearer_admins
            (userService provider_ok "idshield") 0).2.
Proof.
  assert (Hacc : accepted libraries bearer_admins
            (userService provider_ok "idshield")
            "tok1" "Admins" None provider_ok "idshield")
    by (split; reflexivity).
  destruct (C8_handlers_differ_on_success libraries bearer_admins
              (userService provider_ok "idshield")
              "tok1" "Admins" None provider_ok "idshield"
              0 (20 * millisecond) "g-1" admins "g-1" "Admins"
              Hacc eq_refl eq_refl eq_refl eq_refl)
    as (r1 & r2 & -> & -> & _ & _ & _ & Hne).
  intros [= Heq]. exact (Hne Heq).
Defined.

(** ** The classifier *)

(** C9 as stated fails: the same raw error text of the create call is
    answered with different codes under different submitted names. *)
Lemma C9_same_error_counterexample :
  map returned_err
    (calls (serve capability libraries bearer_admins
              (userService provider_conflict "idshield") 0).2)
  = map returned_err
      (calls (serve capability libraries bearer_users
                (userService provider_conflict "idshield") 0).2) ∧
  sent (serve capability libraries bearer_admins
          (userService provider_conflict "idshield") 0).2
  ≠ sent (serve capability libraries bearer_users
            (userService provider_conflict "idshield") 0).2.
Proof. split; [reflexivity | vm_compute; discriminate]. Qed.

(** C9, amended: the answer to a creation error is a function of the raw
    error text and the submitted name: two requests that submit the same name
    and get the same error text receive the same envelope, whatever the
    route, token, attributes, realm, provider, libraries and time. *)
Theorem C9_classification_deterministic
    h1 L1 c1 s1 token1 attrs1 client1 realm1 t1
    h2 L2 c2 s2 token2 attrs2 client2 realm2 t2 name raw :
  accepted L1 c1 s1 token1 name attrs1 client1 realm1 →
  accepted L2 c2 s2 token2 name attrs2 client2 realm2 →
  (create_outcome client1 token1 realm1 (Some name) attrs1 t1).2 = inl raw →
  (create_outcome client2 token2 realm2 (Some name) attrs2 t2).2 = inl raw →
  sent (serve h1 L1 c1 s1 t1).2 = sent (serve h2 L2 c2 s2 t2).2.
Proof.
  intros Hacc1 Hacc2 Hraw1 Hraw2.
  rewrite !serve_sent.
  rewrite (outcome_accepted _ _ _ _ _ _ _ _ _ _ Hacc1).
  rewrite (outcome_accepted _ _ _ _ _ _ _ _ _ _ Hacc2).
  rewrite (provider_phase_create_error _ _ _ _ _ _ _ _ Hraw1).
  by rewrite (provider_phase_create_error _ _ _ _ _ _ _ _ Hraw2).
Qed.

Lemma C9_classification_deterministic_witness :
  sent (serve capability libraries bearer_admins
          (userService provider_conflict "idshield") 0).2
  = sent (serve group libraries
            (request (Some "Bearer tok2") (Some (named "Admins")))
            (userService provider_conflict "other") (5 * Second)).2.
Proof.
  refine (C9_classification_deterministic
            capability libraries bearer_admins
            (userService provider_conflict "idshield")
            "tok1" None provider_conflict "idshield" 0
            group libraries
            (request (Some "Bearer tok2") (Some (named "Admins")))
            (userService provider_conflict "other")
            "tok2" None provider_conflict "other" (5 * Second)
            "Admins" (conflict_text "Admins") _ _ eq_refl eq_refl);
    split; reflexivity.
Defined.

(** ** The submitted name *)

(** C10: when the required check rejects a missing name, a create call that
    returned an error was made for a request whose name is present, and the
    handler returns without a panic: the dereference of the name in the
    classification branch does not fault. *)
Theorem C10_name_present_when_classifying h L c s t0 ev token realm g raw :
  hasValue L None = false →
  ev ∈ calls (serve h L c s t0).2 →
  op ev = OpCreateGroup token realm g →
  returned_err ev = Some raw →
  (∃ body name,
     gin.Body c = Some body ∧ gin.name body = Some name ∧
     gocloak.Name g = Some name) ∧
  (serve h L c s t0).1 = Ok ().
Proof.
  intros Hv. rewrite serve_calls, serve_result. unfold outcome.
  destruct (ExtractToken L _) as [tok|]; [|by intros ?%elem_of_nil].
  destruct (gin.Body c) as [[name attrs]|]; [|by intros ?%elem_of_nil]. simpl.
  destruct name as [name|]; [|rewrite Hv; by intros ?%elem_of_nil].
  destruct (hasValue L (Some name)); [|by intros ?%elem_of_nil].
  destruct (service.Dependencies s !! "goclock") as [[client|?]|];
    try by intros ?%elem_of_nil.
  destruct (service.Dependencies s !! "realm") as [[?|rlm]|];
    try by intros ?%elem_of_nil.
  unfold provider_phase, create_event, get_event.
  destruct (create_outcome client tok rlm (Some name) attrs t0)
    as [t1 [e|gid]]; simpl.
  - intros ->%list_elem_of_singleton. simpl. intros [= <- <- <-] _.
    split; [by eauto | done].
  - destruct (get_outcome client tok rlm gid t0 t1)
      as [t2 [e|[[i|] [n|] p a]]]; simpl;
      (intros [->|[->|[]%elem_of_nil]%elem_of_cons]%elem_of_cons;
       simpl; discriminate).
Qed.

Lemma C10_name_present_when_classifying_witness :
  (∃ body name,
     gin.Body bearer_admins = Some body ∧ gin.name body = Some name ∧
     gocloak.Name (submitted (Some "Admins") None) = Some name) ∧
  (serve capability libraries bearer_admins
     (userService provider_conflict "idshield") 0).1 = Ok ().
Proof.
  refine (C10_name_present_when_classifying capability libraries bearer_admins
            (userService provider_conflict "idshield") 0
            (create_event provider_conflict "tok1" "idshield"
               (Some "Admins") None 0)
            "tok1" "idshield" (submitted (Some "Admins") None)
            (conflict_text "Admins") eq_refl _ eq_refl eq_refl).
  vm_compute. apply elem_of_cons. by left.
Defined.

(** * Further properties of the handlers *)

(** ** Before the provider *)

(** X1: a request with a token whose body does not decode is answered with
    the single code "invalid_json", and the provider is not called. *)
Theorem X1_invalid_body h L c s token t0 :
  ExtractToken L (gin.GetHeader c "Authorization") = Some token →
  gin.Body c = None →
  (serve h L c s t0).1 = Ok () ∧
  sent (serve h L c s t0).2 = [wscutils.NewErrorResponse "invalid_json"] ∧
  calls (serve h L c s t0).2 = [].
Proof.
  intros Ht Hb. rewrite serve_result, serve_sent, serve_calls.
  unfold outcome. by rewrite Ht, Hb.
Qed.

Lemma X1_invalid_body_witness :
  sent (serve capability libraries bearer_no_body
          (userService provider_ok "idshield") 0).2
    = [wscutils.NewErrorResponse "invalid_json"] ∧
  calls (serve capability libraries bearer_no_body
           (userService provider_ok "idshield") 0).2 = [].
Proof.
  exact (proj2 (X1_invalid_body capability libraries bearer_no_body
                  (userService provider_ok "idshield") "tok1" 0
                  eq_refl eq_refl)).
Defined.



(** X3: when the service does not hold a gocloak client under "goclock" or a
    string under "realm", a request that passes validation makes the handler
    panic on the type assertion: no envelope is sent and the provider is not
    called. *)
Theorem X3_missing_dependency h L c s token body t0 :
  ExtractToken L (gin.GetHeader c "Authorization") = Some token →
  gin.Body c = Some body →
  hasValue L (gin.name body) = true →
  (∀ client, service.Dependencies s !! "goclock"
               ≠ Some (service.GoCloakValue client)) ∨
  (∀ realm, service.Dependencies s !! "realm"
              ≠ Some (service.StringValue realm)) →
  (serve h L c s t0).1 = Panic ∧
  sent (serve h L c s t0).2 = [] ∧
  calls (serve h L c s t0).2 = [].
Proof.
  intros Ht Hb Hv Hdep. rewrite serve_result, serve_sent, serve_calls.
  unfold outcome. rewrite Ht, Hb, Hv.
  destruct (service.Dependencies s !! "goclock") as [[client|?]|];
    destruct (service.Dependencies s !! "realm") as [[?|realm]|];
    try done.
  destruct Hdep as [H|H]; [by destruct (H client) | by destruct (H realm)].
Qed.

Lemma X3_missing_dependency_witness :
  (serve capability libraries bearer_admins service.NewService 0).1 = Panic ∧
  sent (serve capability libraries bearer_admins service.NewService 0).2 = [] ∧
  calls (serve capability libraries bearer_admins service.NewService 0).2 = [].
Proof.
  refine (X3_missing_dependency capability libraries bearer_admins
            service.NewService "tok1" (named "Admins") 0
            eq_refl eq_refl eq_refl _).
  left. intros client. discriminate.
Defined.

(** ** The calls on the provider *)

Lemma bounded_inr {A} ctx now (answer : Z * (string + A)) timeout x :
  (bounded ctx now answer timeout).2 = inr x →
  answer.2 = inr x ∧ now + answer.1 ≤ deadline ctx ∧
  (bounded ctx now answer timeout).1 = now + answer.1.
Proof.
  unfold bounded. case_bool_decide; simpl; [done | discriminate].
Qed.

Lemma bounded_by_deadline {A} ctx now (answer : Z * (string + A)) timeout :
  now ≤ deadline ctx → (bounded ctx now answer timeout).1 ≤ deadline ctx.
Proof. unfold bounded. case_bool_decide; simpl; lia. Qed.

(** Splits [outcome] into its cases, keeping the equations. *)
Ltac outcome_cases L c s t0 :=
  unfold outcome;
  destruct (ExtractToken L (gin.GetHeader c "Authorization"))
    as [?token|] eqn:?Htoken; simpl;
  [ destruct (gin.Body c) as [[?name ?attrs]|] eqn:?Hbody; simpl;
    [ match goal with name : option string |- _ =>
        destruct (hasValue L name) eqn:?Hvalid; simpl;
        [ destruct (service.Dependencies s !! "goclock")
            as [[?client|?]|] eqn:?Hclient; simpl;
          [ destruct (service.Dependencies s !! "realm")
              as [[?|?realm]|] eqn:?Hrealm; simpl;
            [ | unfold provider_phase;
                match goal with
                  client : gocloak.GoCloak, token : string, realm : string,
                  attrs : option Attrs |- _ =>
                  destruct (create_outcome client token realm name attrs t0)
                    as [?t1 [?raw|?gid]] eqn:?Hcreate; simpl;
                  [ destruct name as [?n|]; simpl
                  | match goal with t1 : Z, gid : string |- _ =>
                      destruct (get_outcome client token realm gid t0 t1)
                        as [?t2 [?e|[[?i|] [?n|] ?p ?a]]] eqn:?Hget; simpl
                    end ]
                end
              | ]
          | destruct (service.Dependencies s !! "realm")
              as [[?|?realm]|]; simpl
          | destruct (service.Dependencies s !! "realm")
              as [[?|?realm]|]; simpl ]
        | destruct name as [?n|]; simpl ]
      end
    | ]
  | ].

(** X4: the calls of a request follow the protocol: none, or the create
    call alone, or the create call followed, when it returned no error, by
    the get call with the same token and realm for the id the provider gave
    for the created group. *)
Theorem X4_call_protocol h L c s t0 : protocol s (serve h L c s t0).2.
Proof.
  unfold protocol. rewrite serve_calls.
  outcome_cases L c s t0; try (by left);
    try (right; left; unfold create_event; by eauto 10).
  all: right; right; unfold create_event, get_event;
    pose proof (f_equal snd Hcreate) as Hanswer; simpl in Hanswer;
    rewrite Hcreate; simpl;
    apply bounded_inr in Hanswer as (Hanswer & _ & _);
    do 7 eexists; split_and!; try reflexivity; done.
Qed.

(** X5: the provider is not called without a token and a body that passes
    validation: the first call of a request is the create call, made when the
    handler starts, with the token of the header, the realm of the service,
    and a group that has the name and attributes of the body and neither id
    nor path. *)
Theorem X5_first_call_carries_request h L c s t0 ev :
  calls (serve h L c s t0).2 !! 0%nat = Some ev →
  ∃ token body client realm,
    ExtractToken L (gin.GetHeader c "Authorization") = Some token ∧
    gin.Body c = Some body ∧
    hasValue L (gin.name body) = true ∧
    service.Dependencies s !! "goclock" = Some (service.GoCloakValue client) ∧
    service.Dependencies s !! "realm" = Some (service.StringValue realm) ∧
    started ev = t0 ∧
    op ev = OpCreateGroup token realm
              {| gocloak.ID := None; gocloak.Name := gin.name body;
                 gocloak.Path := None;
                 gocloak.Attributes := gin.attributes body |}.
Proof.
  rewrite serve_calls.
  outcome_cases L c s t0; try done.
  all: intros [= <-]; do 4 eexists; split_and!; try done.
Qed.

Lemma X5_first_call_carries_request_witness :
  ∃ token body client realm,
    ExtractToken libraries (gin.GetHeader bearer_admins "Authorization")
      = Some token ∧
    gin.Body bearer_admins = Some body ∧
    hasValue libraries (gin.name body) = true ∧
    service.Dependencies (userService provider_ok "idshield") !! "goclock"
      = Some (service.GoCloakValue client) ∧
    service.Dependencies (userService provider_ok "idshield") !! "realm"
      = Some (service.StringValue realm) ∧
    started (create_event provider_ok "tok1" "idshield" (Some "Admins") None 0)
      = 0 ∧
    op (create_event provider_ok "tok1" "idshield" (Some "Admins") None 0)
      = OpCreateGroup token realm
          {| gocloak.ID := None; gocloak.Name := gin.name body;
             gocloak.Path := None;
             gocloak.Attributes := gin.attributes body |}.
Proof.
  exact (X5_first_call_carries_request capability libraries bearer_admins
           (userService provider_ok "idshield") 0
           (create_event provider_ok "tok1" "idshield" (Some "Admins") None 0)
           eq_refl).
Defined.

(** ** The envelopes *)

(** X6: a request is answered with at most one envelope, and every envelope
    is either data under the status of the route with no message, or the
    status "error" with no data and exactly one message, whose code is one of
    token_missing, invalid_json, required, Unauthorized, name already exist
    and unknown; a handler that panics has sent nothing. *)
Theorem X6_at_most_one_envelope h L c s t0 :
  (sent (serve h L c s t0).2 = [] ∨
   ∃ r, sent (serve h L c s t0).2 = [r] ∧ well_formed (route h) r) ∧
  ((serve h L c s t0).1 = Panic → sent (serve h L c s t0).2 = []).
Proof.
  rewrite serve_sent, serve_result.
  outcome_cases L c s t0; (split; [|done]); try (by left).
  all: right; eexists; split; [reflexivity|]; unfold well_formed; simpl.
  all: try (left; by eauto).
  all: right; split_and!; try done; eexists; split; [reflexivity|]; simpl.
  all: unfold error_codes; try destruct (classify _ _); simpl;
    rewrite !elem_of_cons; tauto.
Qed.

(** X7: when the fetched group comes without an id or without a name, the
    handler panics on the dereference after both calls and sends nothing. *)
Theorem X7_fetched_group_incomplete
    h L c s token name attrs client realm t0 t1 groupID groupInfo :
  accepted L c s token name attrs client realm →
  create_outcome client token realm (Some name) attrs t0 = (t1, inr groupID) →
  (get_outcome client token realm groupID t0 t1).2 = inr groupInfo →
  gocloak.ID groupInfo = None ∨ gocloak.Name groupInfo = None →
  (serve h L c s t0).1 = Panic ∧
  sent (serve h L c s t0).2 = [] ∧
  length (calls (serve h L c s t0).2) = 2%nat.
Proof.
  intros Hacc Hc Hg Hnil. rewrite serve_result, serve_sent, serve_calls.
  rewrite (outcome_accepted _ _ _ _ _ _ _ _ _ _ Hacc).
  unfold provider_phase. rewrite Hc. simpl. rewrite Hg.
  destruct (gocloak.ID groupInfo), (gocloak.Name groupInfo), Hnil; done.
Qed.

Lemma X7_fetched_group_incomplete_witness :
  (serve capability libraries bearer_admins
     (userService provider_nameless "idshield") 0).1 = Panic ∧
  sent (serve capability libraries bearer_admins
          (userService provider_nameless "idshield") 0).2 = [] ∧
  length (calls (serve capability libraries bearer_admins
                   (userService provider_nameless "idshield") 0).2) = 2%nat.
Proof.
  refine (X7_fetched_group_incomplete capability libraries bearer_admins
            (userService provider_nameless "idshield")
            "tok1" "Admins" None provider_nameless "idshield"
            0 (20 * millisecond) "g-1"
            {| gocloak.ID := Some "g-1"; gocloak.Name := None;
               gocloak.Path := None; gocloak.Attributes := None |}
            _ eq_refl eq_refl (or_intror eq_refl)).
  split; reflexivity.
Defined.

(** X8: when the provider would create the group and return it complete, the
    request is answered with data exactly when the two calls together take
    no more than ten seconds. *)
Theorem X8_answered_iff_in_time
    h L c s token name attrs client realm t0 lc lg groupID groupInfo i n :
  accepted L c s token name attrs client realm →
  gocloak.create_group client token realm (submitted (Some name) attrs)
    = (lc, inr groupID) →
  gocloak.get_group client token realm groupID = (lg, inr groupInfo) →
  gocloak.ID groupInfo = Some i →
  gocloak.Name groupInfo = Some n →
  0 ≤ lg →
  (∃ r, sent (serve h L c s t0).2 = [r] ∧ is_Some (wscutils.Data r))
  ↔ lc + lg ≤ 10 * Second.
Proof.
  intros Hacc Hc Hg Hi Hn Hlg. rewrite serve_sent.
  rewrite (outcome_accepted _ _ _ _ _ _ _ _ _ _ Hacc).
  unfold provider_phase, create_outcome, get_outcome, bounded, request_ctx.
  rewrite Hc. simpl. case_bool_decide as Hcreate; simpl.
  - rewrite Hg. simpl. case_bool_decide as Hget; simpl.
    + rewrite Hi, Hn. split; [lia|]. intros _. eexists. split; [done|].
      by eexists.
    + split; [|lia]. by intros (r & [=] & _).
  - split; [|lia]. intros (r & [= <-] & [? [=]]).
Qed.

Lemma X8_answered_iff_in_time_witness :
  (∃ r, sent (serve capability libraries bearer_admins
                (userService provider_six_six "idshield") 0).2 = [r] ∧
        is_Some (wscutils.Data r))
  ↔ 6 * Second + 6 * Second ≤ 10 * Second.
Proof.
  refine (X8_answered_iff_in_time capability libraries bearer_admins
            (userService provider_six_six "idshield")
            "tok1" "Admins" None provider_six_six "idshield" 0
            (6 * Second) (6 * Second) "g-1" admins "g-1" "Admins"
            _ eq_refl eq_refl eq_refl eq_refl _).
  - split; reflexivity.
  - discriminate.
Defined.

(** X9: the group handler prints nothing; the capability handler prints only
    the error of a failed fetch, and only in a request that is left without
    an envelope. *)
Theorem X9_printing h L c s t0 :
  stdout (serve group L c s t0).2 = [] ∧
  (stdout (serve h L c s t0).2 = [] ∨
   ∃ ev1 ev2 err,
     h = capability ∧
     stdout (serve h L c s t0).2 = [err] ∧
     calls (serve h L c s t0).2 = [ev1; ev2] ∧
     returned_err ev2 = Some err ∧
     sent (serve h L c s t0).2 = []).
Proof.
  rewrite !serve_stdout, serve_calls, serve_sent. split.
  - outcome_cases L c s t0; done.
  - destruct h; simpl; outcome_cases L c s t0; try (by left).
    right. unfold get_event. rewrite Hget. simpl. by eauto 10.
Qed.

(** ** Time and the log *)

(** Unfolds a run of a handler, whose validation function is [validate],
    into its cases. *)
Ltac run_cases L c s t0 validate :=
  unfold run, BindJSON;
  destruct (ExtractToken L (gin.GetHeader c "Authorization")) as [?token|];
  [ destruct (gin.Body c) as [[?name ?attrs]|];
    [ unfold validate, WscValidate, validator.Struct; monad; simpl;
      match goal with name : option string |- _ =>
        destruct (hasValue L name); simpl;
        [ destruct (service.Dependencies s !! "goclock") as [[?client|?]|];
          simpl;
          [ destruct (service.Dependencies s !! "realm") as [[?|?realm]|];
            simpl
          | | ]
        | destruct name; simpl ]
      end
    | simpl ]
  | simpl ];
  try match goal with |- context [bounded _ t0 _ _] =>
    fold (request_ctx t0);
    destruct (bounded (request_ctx t0) t0 _ _)
      as [?t1 [?raw|?gid]] eqn:?Hcreate; simpl;
    [ match goal with name : option string |- _ => destruct name; simpl end;
      repeat match goal with |- context [String.eqb ?a ?b] =>
        destruct (String.eqb a b) end; simpl
    | match goal with |- context [bounded ?ctx ?now ?answer ?timeout] =>
        destruct (bounded ctx now answer timeout)
          as [?t2 [?e|[[?i|] [?n|] ?p ?a]]] eqn:?Hget; simpl
      end ]
  end.

(** Turns the equations of the calls into bounds on the times they end. *)
Ltac deadlines :=
  repeat match goal with
  | H : bounded ?ctx ?now ?answer ?timeout = (_, _) |- _ =>
      let H' := fresh in
      pose proof (bounded_by_deadline ctx now answer timeout) as H';
      rewrite H in H'; simpl in H'; clear H
  end;
  unfold request_ctx, Second in *; simpl in *.

(** X10: a handler returns, or panics, no later than ten seconds after it
    started, however long the provider takes to answer. *)
Theorem X10_ends_within_ten_seconds h L c s t0 :
  clock (serve h L c s t0).2 ≤ t0 + 10 * Second.
Proof.
  destruct h; unfold serve, handler.
  - unfold create_capability.HandleCapabilityCreateRequest.
    run_cases L c s t0 create_capability.validateCreateCapability;
      deadlines; lia.
  - unfold grouphandler.HandleGroupCreationRequest.
    run_cases L c s t0 grouphandler.validateCreateGroup;
      deadlines; lia.
Qed.

(** X11: the last message of the log is the completion message of the
    handler exactly when the request was answered with data; every other way
    out of the handler skips it. *)
Theorem X11_completion_logged_iff_data h L c s t0 :
  last (logs (serve h L c s t0).2) = Some (finished_text h)
  ↔ ∃ r, sent (serve h L c s t0).2 = [r] ∧ is_Some (wscutils.Data r).
Proof.
  destruct h; unfold serve, handler, finished_text.
  - unfold create_capability.HandleCapabilityCreateRequest.
    run_cases L c s t0 create_capability.validateCreateCapability.
    all: split; [try discriminate | try by intros (r & [=] & _)].
    all: try by intros (r & [= <-] & [? [=]]).
    intros _. eexists. split; [done | by eexists].
  - unfold grouphandler.HandleGroupCreationRequest.
    run_cases L c s t0 grouphandler.validateCreateGroup.
    all: split; [try discriminate | try by intros (r & [=] & _)].
    all: try by intros (r & [= <-] & [? [=]]).
    intros _. eexists. split; [done | by eexists].
Qed.

(** ** The vals of a validation error *)

(** X12: the function that gives the vals of a validation error leaves the
    world as it is; it panics exactly for the error "required" on the field
    "name" of a request without a name, gives the text and the name for that
    error on a request with a name, and no vals for any other error. *)
Theorem X12_vals_of_validation_error
    (creq : create_capability.CreateCapabilityRequest)
    (greq : grouphandler.CreateGroupRequest) err w :
  ((create_capability.getValsForCreateCapabilityError creq err w).2 = w ∧
   (create_capability.getValsForCreateCapabilityError creq err w).1 =
     if decide (validator.Field err = "name" ∧ validator.Tag err = "required")
     then match create_capability.Name creq with
          | Some n => Ok ["Capability name is required"; n]
          | None => Panic
          end
     else Ok []) ∧
  ((grouphandler.getValsForCreateCapabilityError greq err w).2 = w ∧
   (grouphandler.getValsForCreateCapabilityError greq err w).1 =
     if decide (validator.Field err = "name" ∧ validator.Tag err = "required")
     then match grouphandler.Name greq with
          | Some n => Ok ["group name is required"; n]
          | None => Panic
          end
     else Ok []).
Proof.
  unfold create_capability.getValsForCreateCapabilityError,
    grouphandler.getValsForCreateCapabilityError.
  destruct (String.eqb_spec (validator.Field err) "name") as [Hf|Hf];
    destruct (String.eqb_spec (validator.Tag err) "required") as [Ht|Ht];
    case_decide as Hd; simpl.
  all: try (destruct Hd; congruence).
  all: try (exfalso; apply Hd; by split).
  all: by destruct (create_capability.Name creq), (grouphandler.Name greq).
Qed.


(** ** The conflict template *)

Lemma length_append (a b : string) :
  String.length (a +:+ b) = (String.length a + String.length b)%nat.
Proof. induction a as [|ch a IH]; simpl; [done | by rewrite IH]. Qed.

Lemma append_inj_r (a b s : string) : a +:+ s = b +:+ s → a = b.
Proof.
  revert b. induction a as [|ch a IH]; intros [|ch' b] H; simpl in H.
  - done.
  - apply (f_equal String.length) in H.
    rewrite !length_append in H. simpl in H. lia.
  - apply (f_equal String.length) in H.
    rewrite !length_append in H. simpl in H. lia.
  - cbn in H. injection H as -> H. by rewrite (IH _ H).
Qed.

Lemma conflict_text_inj (n m : string) :
  conflict_text n = conflict_text m → n = m.
Proof.
  unfold conflict_text. intros H.
  apply (inj (String.app _)) in H. by apply append_inj_r in H.
Qed.

Lemma conflict_text_not_unauthorized (n : string) :
  conflict_text n ≠ "401 Unauthorized: HTTP 401 Unauthorized".
Proof. unfold conflict_text. simpl. discriminate. Qed.

(** X13: when the create call fails with the conflict text for some name, the
    client is told "name already exist" exactly when that name is, character
    for character, the submitted one; for any other name the code is
    "unknown". *)
Theorem X13_conflict_names_the_submitted_group
    h L c s token name attrs client realm t0 other :
  accepted L c s token name attrs client realm →
  (create_outcome client token realm (Some name) attrs t0).2
    = inl (conflict_text other) →
  (sent (serve h L c s t0).2 = [wscutils.NewErrorResponse "name already exist"]
   ↔ other = name) ∧
  (other ≠ name →
   sent (serve h L c s t0).2 = [wscutils.NewErrorResponse "unknown"]).
Proof.
  intros Hacc Hraw. rewrite serve_sent.
  rewrite (outcome_accepted _ _ _ _ _ _ _ _ _ _ Hacc).
  rewrite (provider_phase_create_error _ _ _ _ _ _ _ _ Hraw). cbn [written].
  unfold classify.
  destruct (decide (conflict_text other = _)) as [H401|_];
    [by apply conflict_text_not_unauthorized in H401|].
  destruct (decide (conflict_text other = conflict_text name)) as [Heq|Hne].
  - apply conflict_text_inj in Heq. by split.
  - split; [|done]. split; [discriminate|]. intros ->. done.
Qed.

Lemma X13_conflict_names_the_submitted_group_witness :
  "Admins" ≠ "Users" ∧
  sent (serve capability libraries bearer_users
          (userService provider_conflict "idshield") 0).2
    = [wscutils.NewErrorResponse "unknown"].
Proof.
  assert (Hne : "Admins" ≠ "Users") by discriminate.
  split; [exact Hne|].
  refine (proj2 (X13_conflict_names_the_submitted_group capability libraries
                   bearer_users (userService provider_conflict "idshield")
                   "tok1" "Users" None provider_conflict "idshield" 0
                   "Admins" _ eq_refl) Hne).
  split; reflexivity.
Defined.

(** * Properties of the start of the process *)

(** Unfolds [main] into its cases: the configuration system of the flags,
    the answer of the loader, and the answers of the other steps. *)
Ltac main_cases flags sys :=
  unfold main.main, main.bind, main.act, main.check, main.loaded,
    main.Fatalf, main.ret;
  destruct (String.eqb_spec (main.configSystem flags) "file") as [?Hfile|?Hfile];
  [ destruct (main.LoadConfigFromFile sys (main.configFilePath flags))
      as [?e|?config] eqn:?Hload
  | destruct (String.eqb_spec (main.configSystem flags) "rigel")
      as [?Hrigel|?Hrigel];
    [ destruct (main.LoadConfigFromRigel sys (main.etcdEndpoints flags)
                  (main.rigelConfigName flags) (main.rigelSchemaName flags))
        as [?e|?config] eqn:?Hload
    | ] ];
  simpl;
  try (destruct (main.Open sys "./errortypes.yaml") eqn:?Hopen; simpl;
       [ | destruct (main.OpenFile sys "log.txt") eqn:?Hlog; simpl;
           [ | match goal with config : main.AppConfig |- _ =>
                 destruct (main.LoadAuthMiddleware sys
                             (main.KeycloakClientID config)
                             (main.ProviderURL config)) eqn:?Hauth; simpl;
                 [ | destruct (main.SetupRouter sys) eqn:?Hrouter; simpl;
                     [ | destruct (main.Run sys
                                     (":" +:+ main.AppServerPort config))
                           eqn:?Hrun; simpl ] ]
               end ] ]).

(** X14: with a configuration system other than "file" and "rigel", main
    ends at once with the message that names it: no loader is asked, no file
    is opened and no server is started. *)
Theorem X14_unknown_configuration_system flags sys :
  main.configSystem flags ≠ "file" →
  main.configSystem flags ≠ "rigel" →
  main.main flags sys =
    (inl ("Unknown configuration system: " +:+ main.configSystem flags), []).
Proof. intros Hf Hr. main_cases flags sys; done. Qed.

Lemma X14_unknown_configuration_system_witness :
  main.main
    {| main.configSystem := "etcd"; main.configFilePath := "./config.json";
       main.rigelConfigName := "C1"; main.rigelSchemaName := "S1";
       main.etcdEndpoints := "localhost:2379" |} sample_system
  = (inl "Unknown configuration system: etcd", []).
Proof.
  refine (X14_unknown_configuration_system
            {| main.configSystem := "etcd";
               main.configFilePath := "./config.json";
               main.rigelConfigName := "C1"; main.rigelSchemaName := "S1";
               main.etcdEndpoints := "localhost:2379" |} sample_system _ _);
    discriminate.
Defined.

(** X15: main starts a server only when every step has succeeded: the loader
    chosen by the flags gave a configuration, the error types file and the
    log file opened, the auth middleware and the router were set up, and the
    server runs; the server listens on ":" followed by the configured port,
    has the single route POST /capability-create to the capability handler,
    and its service holds the client for the configured Keycloak URL under
    "goclock" and the configured realm under "realm". *)
Theorem X15_server_as_configured flags sys srv done :
  main.main flags sys = (inr srv, done) →
  ∃ config,
    (main.configSystem flags = "file" ∧
     main.LoadConfigFromFile sys (main.configFilePath flags) = inr config ∨
     main.configSystem flags = "rigel" ∧
     main.LoadConfigFromRigel sys (main.etcdEndpoints flags)
       (main.rigelConfigName flags) (main.rigelSchemaName flags)
       = inr config) ∧
    main.Open sys "./errortypes.yaml" = None ∧
    main.OpenFile sys "log.txt" = None ∧
    main.LoadAuthMiddleware sys (main.KeycloakClientID config)
      (main.ProviderURL config) = None ∧
    main.SetupRouter sys = None ∧
    main.Run sys (":" +:+ main.AppServerPort config) = None ∧
    main.addr srv = ":" +:+ main.AppServerPort config ∧
    main.routes srv = [("POST", "/capability-create", capability)] ∧
    main.userService srv =
      userService (main.NewClient sys (main.KeycloakURL config))
        (main.Realm config).
Proof.
  main_cases flags sys; try discriminate.
  all: intros [= <- <-]; exists config; split_and!; try done; by auto.
Qed.

Lemma X15_server_as_configured_witness :
  ∃ srv done,
    main.main main.defaults sample_system = (inr srv, done) ∧
    main.addr srv = ":8080" ∧
    main.userService srv = userService provider_ok "idshield".
Proof.
  destruct (main.main main.defaults sample_system) as [[msg|srv] done] eqn:Hmain;
    [discriminate|].
  exists srv, done. split; [done|].
  destruct (X15_server_as_configured main.defaults sample_system srv done Hmain)
    as (config & [[_ Hload]|[Hrigel _]] & _ & _ & _ & _ & _ & Haddr & _ & Hsvc);
    [|discriminate].
  injection Hload as <-. by split.
Defined.

(** X16: whatever the flags and the system, the only route main registers is
    POST /capability-create to the capability handler; the group handler is
    never registered. *)
Theorem X16_only_route flags sys method path h :
  main.DoRegisterRoute method path h ∈ (main.main flags sys).2 →
  method = "POST" ∧ path = "/capability-create" ∧ h = capability.
Proof.
  main_cases flags sys; rewrite ?elem_of_cons, ?elem_of_nil; intros H;
    repeat (destruct H as [H|H]; try discriminate); try done.
  all: by injection H as -> -> ->.
Qed.

Lemma X16_only_route_witness :
  main.DoRegisterRoute "POST" "/capability-create" capability
    ∈ (main.main main.defaults sample_system).2 ∧
  "POST" = "POST" ∧ "/capability-create" = "/capability-create" ∧
  capability = capability.
Proof.
  assert (Hin : main.DoRegisterRoute "POST" "/capability-create" capability
                  ∈ (main.main main.defaults sample_system).2).
  { apply list_elem_of_lookup. by exists 10%nat. }
  split; [exact Hin|].
  exact (X16_only_route main.defaults sample_system
           "POST" "/capability-create" capability Hin).
Defined.

Lemma userService_accepted L c token name attrs client realm :
  ExtractToken L (gin.GetHeader c "Authorization") = Some token →
  gin.Body c = Some {| gin.name := Some name; gin.attributes := attrs |} →
  hasValue L (Some name) = true →
  accepted L c (userService client realm) token name attrs client realm.
Proof.
  intros Ht Hb Hv. by split.
Qed.

Lemma main_service flags sys srv done :
  main.main flags sys = (inr srv, done) →
  ∃ config,
    (main.LoadConfigFromFile sys (main.configFilePath flags) = inr config ∨
     main.LoadConfigFromRigel sys (main.etcdEndpoints flags)
       (main.rigelConfigName flags) (main.rigelSchemaName flags)
       = inr config) ∧
    main.userService srv =
      userService (main.NewClient sys (main.KeycloakURL config))
        (main.Realm config).
Proof.
  main_cases flags sys; try discriminate.
  all: intros [= <- <-]; exists config; split; [by auto | done].
Qed.

(** X17: a request with a token and a name that passes validation, handled
    on the service of the server main has started, does not panic on the
    dependencies: its first provider call is the create call on the client
    made for the configured Keycloak URL, in the configured realm, with the
    token, name and attributes of the request. *)
Theorem X17_served_request_reaches_configured_provider
    flags sys srv done L c token name attrs t0 :
  main.main flags sys = (inr srv, done) →
  ExtractToken L (gin.GetHeader c "Authorization") = Some token →
  gin.Body c = Some {| gin.name := Some name; gin.attributes := attrs |} →
  hasValue L (Some name) = true →
  ∃ config,
    (main.LoadConfigFromFile sys (main.configFilePath flags) = inr config ∨
     main.LoadConfigFromRigel sys (main.etcdEndpoints flags)
       (main.rigelConfigName flags) (main.rigelSchemaName flags)
       = inr config) ∧
    calls (serve capability L c (main.userService srv) t0).2 !! 0%nat =
      Some (create_event (main.NewClient sys (main.KeycloakURL config))
              token (main.Realm config) (Some name) attrs t0).
Proof.
  intros Hmain Ht Hb Hv.
  destruct (main_service flags sys srv done Hmain) as (config & Hload & ->).
  exists config. split; [done|].
  rewrite serve_calls.
  rewrite (outcome_accepted _ _ _ _ _ _ _ _ _ _
             (userService_accepted L c token name attrs
                (main.NewClient sys (main.KeycloakURL config))
                (main.Realm config) Ht Hb Hv)).
  unfold provider_phase.
  destruct (create_outcome _ _ _ _ _ _) as [t1 [raw|gid]]; simpl; [done|].
  by destruct (get_outcome _ _ _ _ _ _) as [t2 [e|[[i|] [n|] p a]]].
Qed.

Lemma X17_served_request_reaches_configured_provider_witness :
  ∃ srv done,
    main.main main.defaults sample_system = (inr srv, done) ∧
    calls (serve capability libraries bearer_admins (main.userService srv) 0).2
      !! 0%nat
    = Some (create_event provider_ok "tok1" "idshield" (Some "Admins") None 0).
Proof.
  destruct (main.main main.defaults sample_system) as [[msg|srv] done] eqn:Hmain;
    [discriminate|].
  exists srv, done. split; [done|].
  destruct (X17_served_request_reaches_configured_provider
              main.defaults sample_system srv done libraries bearer_admins
              "tok1" "Admins" None 0 Hmain eq_refl eq_refl eq_refl)
    as (config & [Hload|Hload] & Hcall); [|discriminate].
  injection Hload as <-. exact Hcall.
Defined.

(** X18: as soon as the loader chosen by the flags has given a
    configuration, main prints it whole, with the client secret, before it
    opens a file or sets anything up. *)
Theorem X18_configuration_printed flags sys config :
  main.configSystem flags = "file" ∧
  main.LoadConfigFromFile sys (main.configFilePath flags) = inr config ∨
  main.configSystem flags = "rigel" ∧
  main.LoadConfigFromRigel sys (main.etcdEndpoints flags)
    (main.rigelConfigName flags) (main.rigelSchemaName flags) = inr config →
  (main.main flags sys).2 !! 1%nat = Some (main.DoPrintf config).
Proof.
  intros [[Hsys Hcfg]|[Hsys Hcfg]]; revert Hcfg;
    main_cases flags sys; try congruence.
  all: try (rewrite Hsys in *; done).
Qed.

Lemma X18_configuration_printed_witness :
  (main.main main.defaults sample_system).2 !! 1%nat
    = Some (main.DoPrintf sample_config).
Proof.
  exact (X18_configuration_printed main.defaults sample_system sample_config
           (or_introl (conj eq_refl eq_refl))).
Defined.
